(** * Terragrunt provider: directory discovery, plan generation, cleanup

    A shallow embedding of
    [internal/providers/terraform/terragrunt_provider.go].

    The Go code talks to the outside world (the terragrunt binary, the file
    system, the logger).  Those calls are kept abstract: they are fields of an
    environment record that act on an abstract [World], and every call is
    recorded, with its arguments and its answer, in an event trace.  The Go
    functions themselves are written in a small state-and-trace monad, with
    [defer] modelled by an explicit stack that is unwound when the function
    leaves. *)

From Stdlib Require Import String Ascii Bool Arith PeanoNat Lia List.
From Stdlib.Strings Require Import Byte.
Import ListNotations.

Set Implicit Arguments.

Local Open Scope string_scope.
Local Open Scope list_scope.

(** ** Data *)

(** Go's [[]byte]. *)
Definition bytes := list byte.

(** Go's [error] values, identified with their message. *)
Definition error := string.

(** [errors.Wrap(err, msg)]. *)
Definition Wrap (err : error) (msg : string) : error :=
  String.append msg (String.append ": " err).

(** The fields of [CmdOptions] this file reads or writes. *)
Record CmdOptions := mkCmdOptions {
  TerraformBinary : string;
  Dir : string;
  TerraformConfigFile : string
}.

Record TerragruntInfo := mkTerragruntInfo {
  ConfigPath : string;
  WorkingDir : string
}.

(** The embedded [*DirProvider]: the fields used here. *)
Record DirProvider := mkDirProvider {
  dp_Path : string;
  dp_TerraformBinary : string;
  dp_UseState : bool;
  dp_IsTerragrunt : bool
}.

Record TerragruntProvider := mkTerragruntProvider {
  tp_Path : string;
  tp_EnableDashboard : bool;
  tp_DirProvider : DirProvider
}.

Definition defaultTerragruntBinary : string := "terragrunt".
Definition minTerragruntVer : string := "v0.28.1".

(** A Go call either returns or panics (here: an index out of range). *)
Inductive Result (A : Type) : Type :=
| Returned (a : A)
| Panicked.
Arguments Panicked {A}.

(** ** Events: one per call that leaves the process *)

Inductive Event : Type :=
| EvSpinnerNew (msg : string)
| EvSpinnerFail
| EvSpinnerSuccess
| EvPrintTerraformErr (err : error)
| EvCmd (opts : CmdOptions) (args : list string) (r : bytes + error)
| EvChecks (r : option error)
| EvBuildOpts (path : string) (r : CmdOptions + error)
| EvShow (opts : CmdOptions) (planFile : string) (r : bytes + error)
| EvPlan (opts : CmdOptions) (initOnFail : bool)
         (r : string * bytes * option error)
| EvRemove (path : string) (r : option error)
| EvWarn (err : error).

(** ** The monad: abstract world, emitted events *)

Section Monad.
Variable World : Type.

Definition M (A : Type) : Type := World -> A * list Event * World.

Definition ret {A} (a : A) : M A := fun w => (a, [], w).

Definition bind {A B} (m : M A) (f : A -> M B) : M B :=
  fun w =>
    let '(a, e1, w1) := m w in
    let '(b, e2, w2) := f a w1 in
    (b, e1 ++ e2, w2).

Definition emit (e : Event) : M unit := fun w => (tt, [e], w).

(** Observations on a finished run. *)
Definition value {A} (r : A * list Event * World) : A := fst (fst r).
Definition events {A} (r : A * list Event * World) : list Event :=
  snd (fst r).
Definition final {A} (r : A * list Event * World) : World := snd r.
End Monad.

Arguments ret {World A} a.
Arguments bind {World A B} m f.
Arguments emit {World} e.
Arguments value {World A} r.
Arguments events {World A} r.
Arguments final {World A} r.

Notation "x <- m ;; k" := (bind m (fun x => k))
  (at level 61, m at next level, right associativity).
Notation "m ;;; k" := (bind m (fun _ => k))
  (at level 61, right associativity).

(** ** [bytes.SplitAfter] *)

(** [bytes.HasPrefix s p]. *)
Fixpoint HasPrefix (s p : bytes) {struct p} : bool :=
  match p, s with
  | [], _ => true
  | _ :: _, [] => false
  | a :: p', b :: s' => Byte.eqb a b && HasPrefix s' p'
  end.

(** [bytes.Index s sep]: position of the first instance of [sep] in [s],
    [None] for Go's [-1]. *)
Fixpoint Index (s sep : bytes) : option nat :=
  if HasPrefix s sep then Some 0
  else match s with
       | [] => None
       | _ :: s' => option_map S (Index s' sep)
       end.

(** The loop of Go's [genSplit] with [sepSave = len(sep)] and no limit on the
    number of pieces: cut after the first instance of [sep], go on with the
    rest, and end with whatever remains.  [fuel] bounds the number of cuts. *)
Fixpoint genSplit (fuel : nat) (s sep : bytes) : list bytes :=
  match fuel with
  | 0 => [s]
  | S fuel' =>
      match Index s sep with
      | None => [s]
      | Some m =>
          firstn (m + length sep) s
            :: genSplit fuel' (skipn (m + length sep) s) sep
      end
  end.

(** [bytes.SplitAfter s sep] for a non-empty [sep]; every cut consumes at
    least one byte, so [length s] cuts are enough (see
    [genSplit_fuel_enough]). *)
Definition SplitAfter (s sep : bytes) : list bytes :=
  genSplit (length s) s sep.

(** [[]byte{'}', '\n'}] *)
Definition braceNewline : bytes := [x7d; x0a]%byte.

(** ** The environment *)

Section Provider.
Variable World : Type.

(** Types of the schema and config packages, which are not part of this
    file. *)
Variable Metadata : Type.
Variable Resources : Type.
Variable Usage : Type.

Record Project := mkProject {
  Name : string;
  ProjectMetadata : Metadata;
  HasDiff : bool;
  PastResources : option Resources;
  ProjectResources : Resources
}.

(** Everything the provider calls but does not define. *)
Record Env := mkEnv {
  (** [Cmd(opts, args...)] *)
  env_Cmd : CmdOptions -> list string -> World -> (bytes + error) * World;
  (** [p.checks()] *)
  env_checks : DirProvider -> World -> option error * World;
  (** [p.buildCommandOpts(path)] *)
  env_buildCommandOpts :
    DirProvider -> string -> World -> (CmdOptions + error) * World;
  (** [p.runShow(opts, spinner, planFile)] *)
  env_runShow :
    DirProvider -> CmdOptions -> string -> World -> (bytes + error) * World;
  (** [p.runPlan(opts, spinner, initOnFail)]: all three results are
      returned, also next to an error. *)
  env_runPlan :
    DirProvider -> CmdOptions -> bool -> World ->
    (string * bytes * option error) * World;
  (** [os.Remove(name)] *)
  env_Remove : string -> World -> option error * World;
  (** [json.Unmarshal(data, &info)] *)
  json_Unmarshal : bytes -> TerragruntInfo + error;
  (** [filepath.Dir], [filepath.Join] *)
  filepath_Dir : string -> string;
  filepath_Join : string -> string -> string;
  (** [config.DetectProjectMetadata], with [Type] then set to [p.Type()] *)
  DetectProjectMetadata : string -> Metadata;
  setType : Metadata -> string -> Metadata;
  (** [schema.GenerateProjectName] *)
  GenerateProjectName : Metadata -> bool -> string;
  (** [NewParser(p.ctx).parseJSON(j, usage)]: past resources, resources *)
  parseJSON : bytes -> Usage -> (Resources * Resources) + error
}.

Variable E : Env.

Local Abbreviation M := (M World).

(** Calls into the environment, each leaving its event. *)
Definition call {A} (f : World -> A * World) (ev : A -> Event) : M A :=
  fun w => let '(a, w') := f w in (a, [ev a], w').

Definition Cmd (opts : CmdOptions) (args : list string) : M (bytes + error) :=
  call (env_Cmd E opts args) (EvCmd opts args).

Definition checks (p : DirProvider) : M (option error) :=
  call (env_checks E p) EvChecks.

Definition buildCommandOpts (p : DirProvider) (path : string)
  : M (CmdOptions + error) :=
  call (env_buildCommandOpts E p path) (EvBuildOpts path).

Definition runShow (p : DirProvider) (opts : CmdOptions) (planFile : string)
  : M (bytes + error) :=
  call (env_runShow E p opts planFile) (EvShow opts planFile).

Definition runPlan (p : DirProvider) (opts : CmdOptions) (initOnFail : bool)
  : M (string * bytes * option error) :=
  call (env_runPlan E p opts initOnFail) (EvPlan opts initOnFail).

Definition os_Remove (name : string) : M (option error) :=
  call (env_Remove E name) (EvRemove name).

(** ** [getProjectDirs] *)

(** Lines 124-127: split, then drop the last piece when there are several. *)
Definition splitJSONs (out : bytes) : list bytes :=
  let jsons := SplitAfter out braceNewline in
  if Nat.ltb 1 (length jsons) then firstn (length jsons - 1) jsons else jsons.

(** Lines 132-146: the decoding loop, with the two slices built so far. *)
Fixpoint decodeDirs (jsons : list bytes) (configDirs workingDirs : list string)
  : M (list string * list string * option error) :=
  match jsons with
  | [] =>
      emit EvSpinnerSuccess ;;;
      ret (configDirs, workingDirs, None)
  | j :: rest =>
      match json_Unmarshal E j with
      | inr err =>
          emit EvSpinnerFail ;;;
          ret (configDirs, workingDirs, Some err)
      | inl info =>
          decodeDirs rest
            (configDirs ++ [filepath_Dir E (ConfigPath info)])
            (workingDirs ++ [WorkingDir info])
      end
  end.

(** Lines 112-116: the options and arguments of the discovery command. *)
Definition discoveryOpts (p : TerragruntProvider) : CmdOptions :=
  {| TerraformBinary := dp_TerraformBinary (tp_DirProvider p);
     Dir := tp_Path p;
     TerraformConfigFile := EmptyString |}.

Definition discoveryArgs : list string :=
  ["run-all"; "--terragrunt-ignore-external-dependencies"; "terragrunt-info"].

Definition getProjectDirs (p : TerragruntProvider)
  : M (list string * list string * option error) :=
  emit (EvSpinnerNew "Running terragrunt run-all terragrunt-info") ;;;
  r <- Cmd (discoveryOpts p) discoveryArgs ;;
  match r with
  | inr err =>
      emit EvSpinnerFail ;;;
      emit (EvPrintTerraformErr err) ;;;
      ret ([], [], Some err)
  | inl out => decodeDirs (splitJSONs out) [] []
  end.

(** A stream that holds one document [doc]: either the stream is [doc] and
    holds no separator, or [doc] ends with the separator, holds no earlier
    one, and is followed by a rest without separator (the empty rest, in
    what terragrunt prints). *)
Definition oneDocument (out doc : bytes) : Prop :=
  (out = doc /\ Index doc braceNewline = None) \/
  (exists body rest,
      doc = body ++ braceNewline /\
      Index doc braceNewline = Some (length body) /\
      Index rest braceNewline = None /\
      out = doc ++ rest).

(** ** [defer] *)

(** The two kinds of deferred call in this file. *)
Inductive Deferred : Type :=
| DeferRemove (name : string)
    (* defer os.Remove(opts.TerraformConfigFile) *)
| DeferCleanup (workingDirs : list string) (planFile : string).
    (* the deferred closure of lines 198-203 *)

(** ** [cleanupPlanFiles] *)

(** Lines 244-249. *)
Fixpoint removeEach (paths : list string) (planFile : string)
  : M (option error) :=
  match paths with
  | [] => ret None
  | path :: rest =>
      r <- os_Remove (filepath_Join E path planFile) ;;
      match r with
      | Some err => ret (Some err)
      | None => removeEach rest planFile
      end
  end.

Definition cleanupPlanFiles (paths : list string) (planFile : string)
  : M (option error) :=
  if String.eqb planFile EmptyString then ret None else removeEach paths planFile.

(** Running one deferred call.  The result of a deferred [os.Remove] is
    dropped; the closure logs what [cleanupPlanFiles] returns. *)
Definition runDeferred (d : Deferred) : M unit :=
  match d with
  | DeferRemove name => os_Remove name ;;; ret tt
  | DeferCleanup workingDirs planFile =>
      r <- cleanupPlanFiles workingDirs planFile ;;
      match r with
      | Some err => emit (EvWarn err)
      | None => ret tt
      end
  end.

(** The stack of deferred calls, last pushed first, is unwound when the
    function leaves, by a return or by a panic. *)
Fixpoint unwind (ds : list Deferred) : M unit :=
  match ds with
  | [] => ret tt
  | d :: rest => runDeferred d ;;; unwind rest
  end.

Definition withDefers {A} (body : M (A * list Deferred)) : M A :=
  r <- body ;;
  let '(a, ds) := r in
  unwind ds ;;;
  ret a.

(** Lines 168-170: a config file, when one was written, is removed on exit. *)
Definition deferConfigFile (opts : CmdOptions) (ds : list Deferred)
  : list Deferred :=
  if String.eqb (TerraformConfigFile opts) EmptyString then ds
  else DeferRemove (TerraformConfigFile opts) :: ds.

(** Lines 157-160 and 214-217. *)
Definition showSpinnerMsg (configDirs : list string) : string :=
  if Nat.ltb 1 (length configDirs)
  then String.append "Running terragrunt show" " for each project"
  else "Running terragrunt show".

(** ** [generateStateJSONs] *)

(** Lines 163-179. *)
Fixpoint stateLoop (p : DirProvider) (paths : list string)
    (outs : list bytes) (ds : list Deferred)
  : M (list bytes * option error * list Deferred) :=
  match paths with
  | [] => ret (outs, None, ds)
  | path :: rest =>
      r <- buildCommandOpts p path ;;
      match r with
      | inr err => ret ([], Some err, ds)
      | inl opts =>
          let ds := deferConfigFile opts ds in
          o <- runShow p opts EmptyString ;;
          match o with
          | inr err => ret (outs, Some err, ds)
          | inl out => stateLoop p rest (outs ++ [out]) ds
          end
      end
  end.

Definition generateStateJSONs_body (p : TerragruntProvider)
    (configDirs : list string)
  : M (list bytes * option error * list Deferred) :=
  c <- checks (tp_DirProvider p) ;;
  match c with
  | Some err => ret ([], Some err, [])
  | None =>
      emit (EvSpinnerNew (showSpinnerMsg configDirs)) ;;;
      stateLoop (tp_DirProvider p) configDirs [] []
  end.

Definition generateStateJSONs (p : TerragruntProvider)
    (configDirs : list string) : M (list bytes * option error) :=
  withDefers (generateStateJSONs_body p configDirs).

(** ** [generatePlanJSONs] *)

(** Lines 220-236; [i] is the loop index, [workingDirs[i]] panics when it
    is out of range. *)
Fixpoint planLoop (p : DirProvider) (workingDirs : list string)
    (planFile : string) (i : nat) (paths : list string)
    (outs : list bytes) (ds : list Deferred)
  : M (Result (list bytes * option error) * list Deferred) :=
  match paths with
  | [] => ret (Returned (outs, None), ds)
  | path :: rest =>
      r <- buildCommandOpts p path ;;
      match r with
      | inr err => ret (Returned ([], Some err), ds)
      | inl opts =>
          let ds := deferConfigFile opts ds in
          match nth_error workingDirs i with
          | None => ret (Panicked, ds)
          | Some wd =>
              o <- runShow p opts (filepath_Join E wd planFile) ;;
              match o with
              | inr err => ret (Returned (outs, Some err), ds)
              | inl out =>
                  planLoop p workingDirs planFile (S i) rest (outs ++ [out]) ds
              end
          end
      end
  end.

Definition generatePlanJSONs_body (p : DirProvider)
    (configDirs workingDirs : list string)
  : M (Result (list bytes * option error) * list Deferred) :=
  c <- checks p ;;
  match c with
  | Some err => ret (Returned ([], Some err), [])
  | None =>
      r <- buildCommandOpts p (dp_Path p) ;;
      match r with
      | inr err => ret (Returned ([], Some err), [])
      | inl opts =>
          let ds := deferConfigFile opts [] in
          emit (EvSpinnerNew "Running terragrunt run-all plan") ;;;
          r <- runPlan p opts true ;;
          let '(planFile, planJSON, err) := r in
          let ds := DeferCleanup workingDirs planFile :: ds in
          match err with
          | Some err => ret (Returned ([], Some err), ds)
          | None =>
              if Nat.ltb 0 (length planJSON)
              then ret (Returned ([planJSON], None), ds)
              else
                emit (EvSpinnerNew (showSpinnerMsg configDirs)) ;;;
                planLoop p workingDirs planFile 0 configDirs [] ds
          end
      end
  end.

Definition generatePlanJSONs (p : DirProvider)
    (configDirs workingDirs : list string)
  : M (Result (list bytes * option error)) :=
  withDefers (generatePlanJSONs_body p configDirs workingDirs).

(** ** [LoadResources] *)

(** [p.Type()] *)
Definition Type_ (p : TerragruntProvider) : string := "terragrunt".

(** Lines 83-104; [outs[i]] panics when it is out of range. *)
Fixpoint projectsLoop (p : TerragruntProvider) (usage : Usage) (i : nat)
    (paths : list string) (outs : list bytes) (projects : list Project)
  : Result (list Project * option error) :=
  match paths with
  | [] => Returned (projects, None)
  | path :: rest =>
      let metadata := setType E (DetectProjectMetadata E path) (Type_ p) in
      let name := GenerateProjectName E metadata (tp_EnableDashboard p) in
      match nth_error outs i with
      | None => Panicked
      | Some out =>
          match parseJSON E out usage with
          | inr err =>
              Returned (projects, Some (Wrap err "Error parsing Terraform JSON"))
          | inl (pastResources, resources) =>
              let hasDiff := negb (dp_UseState (tp_DirProvider p)) in
              let project :=
                {| Name := name;
                   ProjectMetadata := metadata;
                   HasDiff := hasDiff;
                   PastResources :=
                     if hasDiff then Some pastResources else None;
                   ProjectResources := resources |} in
              projectsLoop p usage (S i) rest outs (projects ++ [project])
          end
      end
  end.

Definition LoadResources (p : TerragruntProvider) (usage : Usage)
  : M (Result (list Project * option error)) :=
  r <- getProjectDirs p ;;
  let '(configDirs, workingDirs, err) := r in
  match err with
  | Some err => ret (Returned ([], Some err))
  | None =>
      r <- (if dp_UseState (tp_DirProvider p)
            then (x <- generateStateJSONs p configDirs ;; ret (Returned x))
            else generatePlanJSONs (tp_DirProvider p) configDirs workingDirs) ;;
      match r with
      | Panicked => ret Panicked
      | Returned (_, Some err) => ret (Returned ([], Some err))
      | Returned (outs, None) =>
          ret (projectsLoop p usage 0 configDirs outs [])
      end
  end.

End Provider.

Arguments mkEnv {World Metadata Resources Usage}.

(** ** Reading a trace *)

(** The per-directory show calls of a trace: options, plan file, answer. *)
Fixpoint showCalls (evs : list Event)
  : list (CmdOptions * string * (bytes + error)) :=
  match evs with
  | [] => []
  | EvShow opts planFile r :: rest => (opts, planFile, r) :: showCalls rest
  | _ :: rest => showCalls rest
  end.

(** The option-building calls: directory, answer. *)
Fixpoint buildCalls (evs : list Event) : list (string * (CmdOptions + error)) :=
  match evs with
  | [] => []
  | EvBuildOpts path r :: rest => (path, r) :: buildCalls rest
  | _ :: rest => buildCalls rest
  end.

(** The aggregate plan calls: answer. *)
Fixpoint planCalls (evs : list Event)
  : list (string * bytes * option error) :=
  match evs with
  | [] => []
  | EvPlan _ _ r :: rest => r :: planCalls rest
  | _ :: rest => planCalls rest
  end.

(** The file removals: name, answer. *)
Fixpoint removeCalls (evs : list Event) : list (string * option error) :=
  match evs with
  | [] => []
  | EvRemove name r :: rest => (name, r) :: removeCalls rest
  | _ :: rest => removeCalls rest
  end.

(** The warnings logged. *)
Fixpoint warnings (evs : list Event) : list error :=
  match evs with
  | [] => []
  | EvWarn err :: rest => err :: warnings rest
  | _ :: rest => warnings rest
  end.

(** Events of the unwinding of a [defer] stack: removals and warnings. *)
Definition isCleanupEvent (e : Event) : bool :=
  match e with
  | EvRemove _ _ | EvWarn _ => true
  | _ => false
  end.

(** The error of the first failed option build of a trace, if any. *)
Fixpoint buildFailure (evs : list Event) : option error :=
  match evs with
  | [] => None
  | EvBuildOpts _ (inr err) :: _ => Some err
  | _ :: rest => buildFailure rest
  end.

(** One finished turn of a per-directory loop, and the ways a loop ends. *)
Record Step := mkStep {
  st_path : string;
  st_opts : CmdOptions;
  st_planFile : string;
  st_out : bytes
}.

Inductive Stop : Type :=
| Completed
| BuildFailed (path : string) (err : error)
| ShowFailed (path : string) (opts : CmdOptions) (planFile : string)
             (err : error)
| IndexPanic (path : string) (opts : CmdOptions).

Definition stepEvents (s : Step) : list Event :=
  [EvBuildOpts (st_path s) (inl (st_opts s));
   EvShow (st_opts s) (st_planFile s) (inl (st_out s))].

Definition stopEvents (s : Stop) : list Event :=
  match s with
  | Completed => []
  | BuildFailed path err => [EvBuildOpts path (inr err)]
  | ShowFailed path opts planFile err =>
      [EvBuildOpts path (inl opts); EvShow opts planFile (inr err)]
  | IndexPanic path opts => [EvBuildOpts path (inl opts)]
  end.

(** The directories a loop that ended with [s] did not finish. *)
Definition stopPath (s : Stop) : list string :=
  match s with
  | Completed => []
  | BuildFailed path _ | ShowFailed path _ _ _ | IndexPanic path _ => [path]
  end.

(** The plan file of the show call a loop ended on. *)
Definition stopPlanFile (s : Stop) : list string :=
  match s with
  | ShowFailed _ _ planFile _ => [planFile]
  | _ => []
  end.

(** What a loop that began with [outs] returns after [steps] and [stop]. *)
Definition loopValue (outs : list bytes) (steps : list Step) (stop : Stop)
  : Result (list bytes * option error) :=
  match stop with
  | Completed => Returned (outs ++ map st_out steps, None)
  | BuildFailed _ err => Returned ([], Some err)
  | ShowFailed _ _ _ err => Returned (outs ++ map st_out steps, Some err)
  | IndexPanic _ _ => Panicked
  end.

Definition isDeferRemove (d : Deferred) : bool :=
  match d with
  | DeferRemove _ => true
  | DeferCleanup _ _ => false
  end.

(** The same environment with another [os.Remove]. *)
Definition withRemove {World Metadata Resources Usage}
    (E : Env World Metadata Resources Usage)
    (remove : string -> World -> option error * World)
  : Env World Metadata Resources Usage :=
  mkEnv (env_Cmd E) (env_checks E) (env_buildCommandOpts E) (env_runShow E)
        (env_runPlan E) remove (json_Unmarshal E) (filepath_Dir E)
        (filepath_Join E) (DetectProjectMetadata E) (setType E)
        (GenerateProjectName E) (parseJSON E).

(** What the deferred closure leaves in the trace after [cleanupPlanFiles]
    returned [r]. *)
Definition cleanupWarning (r : option error) : list Event :=
  match r with
  | Some err => [EvWarn err]
  | None => []
  end.

(** ** A scripted environment

    A small stand-in for terragrunt and the file system, in the manner of a
    test double: what the discovery command prints, which byte strings the
    decoder accepts, what the plan command answers, and which directories
    and files fail.  Its world counts the calls made. *)

Record Script := mkScript {
  sc_stdout : bytes + error;
  sc_docs : list TerragruntInfo;
  sc_plan : string * bytes * option error;
  sc_overrides : list string;
  sc_badOpts : list string;
  sc_badShow : list string;
  sc_badRemove : list string
}.

Definition mem (x : string) (l : list string) : bool :=
  existsb (String.eqb x) l.

Definition quoted (s : string) : string :=
  String (ascii_of_nat 34) (String.append s (String (ascii_of_nat 34) EmptyString)).

Definition newline : string := String (ascii_of_nat 10) EmptyString.

(** The text terragrunt-info prints for one directory, without the final
    line break. *)
Definition infoJSON (info : TerragruntInfo) : string :=
  String.concat EmptyString
    ["{"; quoted "ConfigPath"; ":"; quoted (ConfigPath info); ",";
     quoted "WorkingDir"; ":"; quoted (WorkingDir info); "}"].

(** The scripted decoder accepts the text of a listed record, with or
    without a line break after it, and nothing else. *)
Fixpoint lookupDoc (docs : list TerragruntInfo) (j : string)
  : TerragruntInfo + error :=
  match docs with
  | [] =>
      inr (if String.eqb j EmptyString
           then "unexpected end of JSON input"
           else "invalid character in JSON input")
  | info :: rest =>
      if String.eqb j (infoJSON info)
         || String.eqb j (String.append (infoJSON info) newline)
      then inl info
      else lookupDoc rest j
  end.

(** What the discovery command prints for a list of records. *)
Definition infoStream (infos : list TerragruntInfo) : bytes :=
  list_byte_of_string
    (String.concat EmptyString
       (map (fun info => String.append (infoJSON info) newline) infos)).

(** Everything before the last slash, ["."] when there is none. *)
Fixpoint dirChars (s : list ascii) : option (list ascii) :=
  match s with
  | [] => None
  | c :: rest =>
      match dirChars rest with
      | Some d => Some (c :: d)
      | None => if Ascii.eqb c "/" then Some [] else None
      end
  end.

Definition scriptedDir (s : string) : string :=
  match dirChars (list_ascii_of_string s) with
  | Some d => string_of_list_ascii d
  | None => "."
  end.

Definition scriptedJoin (a b : string) : string :=
  if String.eqb b EmptyString then a else String.append a (String.append "/" b).

Definition scripted (sc : Script) : Env nat string bytes unit :=
  mkEnv
    (fun _ _ w => (sc_stdout sc, S w))
    (fun _ w => (None, S w))
    (fun p path w =>
       (if mem path (sc_badOpts sc)
        then inr (String.append "cannot build options for " path)
        else inl {| TerraformBinary := dp_TerraformBinary p;
                    Dir := path;
                    TerraformConfigFile :=
                      if mem path (sc_overrides sc)
                      then scriptedJoin path "override.tf" else EmptyString |},
        S w))
    (fun _ opts planFile w =>
       (if mem (Dir opts) (sc_badShow sc)
        then inr (String.append "show failed in " (Dir opts))
        else inl (list_byte_of_string
                    (String.append (Dir opts) (String.append ":" planFile))),
        S w))
    (fun _ _ _ w => (sc_plan sc, S w))
    (fun name w =>
       (if mem name (sc_badRemove sc)
        then Some (String.append "cannot remove " name) else None,
        S w))
    (fun j => lookupDoc (sc_docs sc) (string_of_list_byte j))
    scriptedDir
    scriptedJoin
    (fun path => path)
    (fun m _ => m)
    (fun m _ => m)
    (fun j _ => inl (j, j)).

Definition theProvider (useState : bool) : TerragruntProvider :=
  {| tp_Path := "/repo";
     tp_EnableDashboard := false;
     tp_DirProvider := {| dp_Path := "/repo";
                          dp_TerraformBinary := defaultTerragruntBinary;
                          dp_UseState := useState;
                          dp_IsTerragrunt := true |} |}.


(** *** Test data *)

Definition infoA : TerragruntInfo :=
  {| ConfigPath := "/repo/a/terragrunt.hcl"; WorkingDir := "/repo/a/.cache" |}.
Definition infoB : TerragruntInfo :=
  {| ConfigPath := "/repo/b/terragrunt.hcl"; WorkingDir := "/repo/b/.cache" |}.
Definition infoC : TerragruntInfo :=
  {| ConfigPath := "/repo/c/terragrunt.hcl"; WorkingDir := "/repo/c/.cache" |}.

(** The output of a show call of the scripted environment. *)
Definition shown (dir planFile : string) : bytes :=
  list_byte_of_string (String.append dir (String.append ":" planFile)).

(** The options the scripted environment builds for a directory without
    override file. *)
Definition optsOf (dir : string) : CmdOptions :=
  {| TerraformBinary := defaultTerragruntBinary;
     Dir := dir;
     TerraformConfigFile := EmptyString |}.

(** A tree of directories [infos]; the plan command answers [plan]. *)
Definition tree (infos : list TerragruntInfo)
    (plan : string * bytes * option error) : Script :=
  {| sc_stdout := inl (infoStream infos);
     sc_docs := infos;
     sc_plan := plan;
     sc_overrides := [];
     sc_badOpts := [];
     sc_badShow := [];
     sc_badRemove := [] |}.

(** The same, with directories whose options cannot be built. *)
Definition withBadOpts (sc : Script) (dirs : list string) : Script :=
  {| sc_stdout := sc_stdout sc;
     sc_docs := sc_docs sc;
     sc_plan := sc_plan sc;
     sc_overrides := sc_overrides sc;
     sc_badOpts := dirs;
     sc_badShow := sc_badShow sc;
     sc_badRemove := sc_badRemove sc |}.

(** The same, with files that cannot be removed. *)
Definition withBadRemove (sc : Script) (names : list string) : Script :=
  {| sc_stdout := sc_stdout sc;
     sc_docs := sc_docs sc;
     sc_plan := sc_plan sc;
     sc_overrides := sc_overrides sc;
     sc_badOpts := sc_badOpts sc;
     sc_badShow := sc_badShow sc;
     sc_badRemove := names |}.

(** The same, with another output of the discovery command. *)
Definition withStdout (sc : Script) (out : bytes) : Script :=
  {| sc_stdout := inl out;
     sc_docs := sc_docs sc;
     sc_plan := sc_plan sc;
     sc_overrides := sc_overrides sc;
     sc_badOpts := sc_badOpts sc;
     sc_badShow := sc_badShow sc;
     sc_badRemove := sc_badRemove sc |}.

(** The plan command wrote one plan file per directory. *)
Definition perDirectoryPlan : string * bytes * option error :=
  (".tfplan", [], None).

(** The plan command printed one plan for the whole tree. *)
Definition unifiedPlan : string * bytes * option error :=
  (".tfplan", list_byte_of_string "{}", None).

(** A stream with a good record and then a piece that is no JSON. *)
Definition brokenPiece : bytes :=
  list_byte_of_string (String.append "{oops}" newline).

Definition brokenStream : bytes := infoStream [infoA] ++ brokenPiece.

Definition dirsAB : list string := ["/repo/a"; "/repo/b"].
Definition workAB : list string := ["/repo/a/.cache"; "/repo/b/.cache"].
Definition dirsABC : list string := ["/repo/a"; "/repo/b"; "/repo/c"].
Definition workABC : list string :=
  ["/repo/a/.cache"; "/repo/b/.cache"; "/repo/c/.cache"].

(** ** The rest of the provider *)

(** What [NewTerragruntProvider] reads of its [*config.ProjectContext]:
    [ctx.ProjectConfig.TerraformBinary], [ctx.ProjectConfig.Path] and
    [ctx.RunContext.Config.EnableDashboard]. *)
Record ProjectContext := mkProjectContext {
  pc_TerraformBinary : string;
  pc_Path : string;
  pc_EnableDashboard : bool
}.

(** Lines 30-46.  [NewDirProvider], of another file, is an argument; the
    provider it returns has its binary and its terragrunt flag overwritten. *)
Definition NewTerragruntProvider (NewDirProvider : ProjectContext -> DirProvider)
    (ctx : ProjectContext) : TerragruntProvider :=
  let dirProvider := NewDirProvider ctx in
  let terragruntBinary :=
    if String.eqb (pc_TerraformBinary ctx) EmptyString
    then defaultTerragruntBinary
    else pc_TerraformBinary ctx in
  {| tp_Path := pc_Path ctx;
     tp_EnableDashboard := pc_EnableDashboard ctx;
     tp_DirProvider :=
       {| dp_Path := dp_Path dirProvider;
          dp_TerraformBinary := terragruntBinary;
          dp_UseState := dp_UseState dirProvider;
          dp_IsTerragrunt := true |} |}.

(** Lines 52-54. *)
Definition DisplayType (p : TerragruntProvider) : string :=
  "Terragrunt directory".

(** Lines 72-76 of [LoadResources]: the generator that [UseState] selects. *)
Definition generateOuts {World Metadata Resources Usage}
    (E : Env World Metadata Resources Usage) (p : TerragruntProvider)
    (configDirs workingDirs : list string)
  : M World (Result (list bytes * option error)) :=
  if dp_UseState (tp_DirProvider p)
  then (x <- generateStateJSONs E p configDirs ;; ret (Returned x))
  else generatePlanJSONs E (tp_DirProvider p) configDirs workingDirs.

(** Lines 84-103 of [LoadResources]: the project built for the directory
    [path] from what the parser returned. *)
Definition projectFor {World Metadata Resources Usage}
    (E : Env World Metadata Resources Usage) (p : TerragruntProvider)
    (path : string) (parsed : Resources * Resources)
  : Project Metadata Resources :=
  let metadata := setType E (DetectProjectMetadata E path) (Type_ p) in
  {| Name := GenerateProjectName E metadata (tp_EnableDashboard p);
     ProjectMetadata := metadata;
     HasDiff := negb (dp_UseState (tp_DirProvider p));
     PastResources :=
       if negb (dp_UseState (tp_DirProvider p))
       then Some (fst parsed) else None;
     ProjectResources := snd parsed |}.

(** A document of the stream that ends with the separator and holds it
    nowhere before. *)
Definition terminated (doc : bytes) : Prop :=
  exists body,
    doc = body ++ braceNewline /\
    Index doc braceNewline = Some (length body).

(** The config files, in order, that the option builds of a trace wrote:
    those of the successful builds with a non-empty [TerraformConfigFile]. *)
Fixpoint configFiles (builds : list (string * (CmdOptions + error)))
  : list string :=
  match builds with
  | [] => []
  | (_, inl opts) :: rest =>
      if String.eqb (TerraformConfigFile opts) EmptyString
      then configFiles rest
      else TerraformConfigFile opts :: configFiles rest
  | (_, inr _) :: rest => configFiles rest
  end.

(** The calls of a trace that start a process or build options. *)
Definition isWorkEvent (e : Event) : bool :=
  match e with
  | EvCmd _ _ _ | EvChecks _ | EvBuildOpts _ _ | EvShow _ _ _ | EvPlan _ _ _ =>
      true
  | _ => false
  end.

(** The calls of a trace that answered an error. *)
Definition isFailure (e : Event) : bool :=
  match e with
  | EvCmd _ _ (inr _) | EvChecks (Some _) | EvBuildOpts _ (inr _)
  | EvShow _ _ (inr _) | EvPlan _ _ (_, _, Some _) => true
  | _ => false
  end.

(** *** More test data *)

(** Two terminated records and a third without its line break. *)
Definition unterminatedStream : bytes :=
  infoStream [infoA] ++ infoStream [infoB]
    ++ list_byte_of_string (infoJSON infoC).

(** The same script, with directories that need an override file. *)
Definition withOverrides (sc : Script) (dirs : list string) : Script :=
  {| sc_stdout := sc_stdout sc;
     sc_docs := sc_docs sc;
     sc_plan := sc_plan sc;
     sc_overrides := dirs;
     sc_badOpts := sc_badOpts sc;
     sc_badShow := sc_badShow sc;
     sc_badRemove := sc_badRemove sc |}.

(** The same script, with directories whose show call fails. *)
Definition withBadShow (sc : Script) (dirs : list string) : Script :=
  {| sc_stdout := sc_stdout sc;
     sc_docs := sc_docs sc;
     sc_plan := sc_plan sc;
     sc_overrides := sc_overrides sc;
     sc_badOpts := sc_badOpts sc;
     sc_badShow := dirs;
     sc_badRemove := sc_badRemove sc |}.

(** The same script, with a discovery command that fails. *)
Definition withFailedDiscovery (sc : Script) (err : error) : Script :=
  {| sc_stdout := inr err;
     sc_docs := sc_docs sc;
     sc_plan := sc_plan sc;
     sc_overrides := sc_overrides sc;
     sc_badOpts := sc_badOpts sc;
     sc_badShow := sc_badShow sc;
     sc_badRemove := sc_badRemove sc |}.

(** The same environment with another parser. *)
Definition withParse {World Metadata Resources Usage}
    (E : Env World Metadata Resources Usage)
    (parse : bytes -> Usage -> (Resources * Resources) + error)
  : Env World Metadata Resources Usage :=
  mkEnv (env_Cmd E) (env_checks E) (env_buildCommandOpts E) (env_runShow E)
        (env_runPlan E) (env_Remove E) (json_Unmarshal E) (filepath_Dir E)
        (filepath_Join E) (DetectProjectMetadata E) (setType E)
        (GenerateProjectName E) parse.

(** A parser that rejects one output. *)
Definition parseAllBut (bad : bytes) (j : bytes) (usage : unit)
  : (bytes * bytes) + error :=
  if String.eqb (string_of_list_byte j) (string_of_list_byte bad)
  then inr "unexpected token" else inl (j, j).

(** Three directories with a plan file each; the one of the second cannot
    be removed. *)
Definition threeDirs : Script :=
  withBadRemove (tree [infoA; infoB; infoC] perDirectoryPlan)
                ["/repo/b/.cache/.tfplan"].

(** Two directories read from persisted state, each with an override file;
    the show call of the second fails. *)
Definition stateBadShow : Script :=
  withBadShow (withOverrides (tree [infoA; infoB] perDirectoryPlan) dirsAB)
              ["/repo/b"].

Unset Implicit Arguments.

(** * Properties *)

(** ** The monad *)

Lemma bind_run World A B (m : M World A) (f : A -> M World B) w :
  bind m f w =
  (value (f (value (m w)) (final (m w))),
   events (m w) ++ events (f (value (m w)) (final (m w))),
   final (f (value (m w)) (final (m w)))).
Proof.
  unfold bind, value, events, final.
  destruct (m w) as [[a e1] w1]; simpl.
  destruct (f a w1) as [[b e2] w2]; reflexivity.
Qed.

Lemma value_bind World A B (m : M World A) (f : A -> M World B) w :
  value (bind m f w) = value (f (value (m w)) (final (m w))).
Proof. rewrite bind_run; reflexivity. Qed.

Lemma events_bind World A B (m : M World A) (f : A -> M World B) w :
  events (bind m f w) = events (m w) ++ events (f (value (m w)) (final (m w))).
Proof. rewrite bind_run; reflexivity. Qed.

Lemma final_bind World A B (m : M World A) (f : A -> M World B) w :
  final (bind m f w) = final (f (value (m w)) (final (m w))).
Proof. rewrite bind_run; reflexivity. Qed.

(** ** [bytes.SplitAfter] *)

Lemma HasPrefix_length s p : HasPrefix s p = true -> length p <= length s.
Proof.
  revert s; induction p as [|a p IH]; intros [|b s]; simpl; try lia.
  intros H. apply andb_true_iff in H as [_ H]. apply IH in H. lia.
Qed.

Lemma HasPrefix_app s t p :
  length p <= length s -> HasPrefix (s ++ t) p = HasPrefix s p.
Proof.
  revert s; induction p as [|a p IH]; intros [|b s]; simpl;
    try reflexivity; try lia.
  intros H. rewrite IH by lia. reflexivity.
Qed.

Lemma HasPrefix_firstn s p :
  HasPrefix s p = true -> firstn (length p) s = p.
Proof.
  revert s; induction p as [|a p IH]; intros [|b s]; simpl;
    try reflexivity; try discriminate.
  intros H. apply andb_true_iff in H as [Hab H].
  apply Byte.byte_dec_bl in Hab. subst b. f_equal. apply IH, H.
Qed.

(** [Index] finds an instance, and the first one. *)
Lemma Index_bound s sep m : Index s sep = Some m -> m + length sep <= length s.
Proof.
  revert m; induction s as [|b s IH]; intros m; simpl.
  - destruct (HasPrefix [] sep) eqn:Hp; [|discriminate].
    intros [= <-]. apply HasPrefix_length in Hp. simpl in *; lia.
  - destruct (HasPrefix (b :: s) sep) eqn:Hp.
    + intros [= <-]. apply HasPrefix_length in Hp. simpl in *; lia.
    + destruct (Index s sep) as [k|]; [|discriminate].
      simpl. intros [= <-]. specialize (IH k eq_refl). lia.
Qed.

Lemma Index_found s sep m :
  Index s sep = Some m -> firstn (length sep) (skipn m s) = sep.
Proof.
  revert m; induction s as [|b s IH]; intros m; simpl.
  - destruct (HasPrefix [] sep) eqn:Hp; [|discriminate].
    intros [= <-]. apply HasPrefix_firstn in Hp. exact Hp.
  - destruct (HasPrefix (b :: s) sep) eqn:Hp.
    + intros [= <-]. apply HasPrefix_firstn in Hp. exact Hp.
    + destruct (Index s sep) as [k|]; [|discriminate].
      simpl. intros [= <-]. apply IH. reflexivity.
Qed.

Lemma Index_app s t sep m : Index s sep = Some m -> Index (s ++ t) sep = Some m.
Proof.
  revert m; induction s as [|b s IH]; intros m H.
  - pose proof (Index_bound _ _ _ H) as Hb. simpl in Hb.
    assert (sep = []) by (destruct sep; [reflexivity | simpl in Hb; lia]).
    subst sep. simpl in H. injection H as <-. destruct t; reflexivity.
  - simpl in H. change ((b :: s) ++ t) with (b :: (s ++ t)).
    cbn [Index]. destruct (HasPrefix (b :: s) sep) eqn:Hp.
    + injection H as <-.
      change (b :: s ++ t) with ((b :: s) ++ t).
      rewrite HasPrefix_app, Hp by (apply HasPrefix_length, Hp). reflexivity.
    + destruct (Index s sep) as [k|] eqn:Hk; [|discriminate].
      simpl in H. injection H as <-.
      pose proof (Index_bound _ _ _ Hk) as Hb.
      change (b :: s ++ t) with ((b :: s) ++ t).
      rewrite HasPrefix_app, Hp by (simpl; lia).
      rewrite (IH k eq_refl). reflexivity.
Qed.

Lemma Index_nil sep : sep <> [] -> Index [] sep = None.
Proof. destruct sep; [congruence | reflexivity]. Qed.

(** The pieces, put together again, are the input. *)
Lemma genSplit_concat fuel s sep : concat (genSplit fuel s sep) = s.
Proof.
  revert s; induction fuel as [|fuel IH]; intros s; simpl.
  - apply app_nil_r.
  - destruct (Index s sep) as [m|]; simpl.
    + rewrite IH. apply firstn_skipn.
    + apply app_nil_r.
Qed.

(** Any fuel from [length s] on gives the same pieces. *)
Lemma genSplit_fuel_enough sep : sep <> [] ->
  forall f1 f2 s, length s <= f1 -> length s <= f2 ->
    genSplit f1 s sep = genSplit f2 s sep.
Proof.
  intros Hsep. induction f1 as [|f1 IH]; intros f2 s H1 H2.
  - assert (s = []) by (destruct s; [reflexivity | simpl in H1; lia]).
    subst s. destruct f2; cbn [genSplit]; [reflexivity|].
    rewrite Index_nil by assumption. reflexivity.
  - destruct f2 as [|f2].
    + assert (s = []) by (destruct s; [reflexivity | simpl in H2; lia]).
      subst s. cbn [genSplit]. rewrite Index_nil by assumption. reflexivity.
    + cbn [genSplit]. destruct (Index s sep) as [m|] eqn:Hm; [|reflexivity].
      pose proof (Index_bound _ _ _ Hm) as Hb.
      assert (0 < length sep) by (destruct sep; [congruence | simpl; lia]).
      f_equal. apply IH; rewrite length_skipn; lia.
Qed.

Lemma HasPrefix_firstn_long s p k :
  length p <= k -> HasPrefix (firstn k s) p = HasPrefix s p.
Proof.
  revert s k; induction p as [|a p IH]; intros [|b s] [|k]; simpl;
    try reflexivity; try lia.
  intros H. rewrite IH by lia. reflexivity.
Qed.

(** The piece cut off at the first instance holds no earlier instance. *)
Lemma Index_firstn s sep m :
  Index s sep = Some m -> Index (firstn (m + length sep) s) sep = Some m.
Proof.
  revert m; induction s as [|b s IH]; intros m.
  - rewrite firstn_nil. exact (fun H => H).
  - cbn [Index]. destruct (HasPrefix (b :: s) sep) eqn:Hp.
    + intros [= <-]. cbn [Nat.add].
      destruct (firstn (length sep) (b :: s)) as [|c t] eqn:Hf.
      * cbn [Index]. rewrite <- Hf, HasPrefix_firstn_long, Hp by lia.
        reflexivity.
      * cbn [Index]. rewrite <- Hf, HasPrefix_firstn_long, Hp by lia.
        reflexivity.
    + destruct (Index s sep) as [k|]; [|discriminate].
      simpl option_map. intros [= <-].
      change (firstn (S k + length sep) (b :: s))
        with (b :: firstn (k + length sep) s).
      cbn [Index].
      change (b :: firstn (k + length sep) s)
        with (firstn (S (k + length sep)) (b :: s)).
      rewrite HasPrefix_firstn_long, Hp by lia.
      change (firstn (S (k + length sep)) (b :: s))
        with (b :: firstn (k + length sep) s).
      cbn iota. rewrite (IH k eq_refl). reflexivity.
Qed.

Lemma genSplit_not_nil fuel s sep : genSplit fuel s sep <> [].
Proof.
  destruct fuel; simpl; [discriminate|].
  destruct (Index s sep); discriminate.
Qed.

(** With enough fuel, every piece but the last holds the separator at its
    end and nowhere before, and the last piece holds none. *)
Lemma genSplit_pieces sep : sep <> [] ->
  forall fuel s front last,
    length s <= fuel ->
    genSplit fuel s sep = front ++ [last] ->
    Forall (fun piece => Index piece sep = Some (length piece - length sep))
           front /\
    Index last sep = None.
Proof.
  intros Hsep. induction fuel as [|fuel IH]; intros s front last Hlen H.
  - assert (s = []) by (destruct s; [reflexivity | simpl in Hlen; lia]).
    subst s. simpl in H.
    destruct front as [|f [|g front]]; try discriminate H.
    injection H as <-. split; [constructor | apply Index_nil, Hsep].
  - cbn [genSplit] in H. destruct (Index s sep) as [m|] eqn:Hm.
    + pose proof (Index_bound _ _ _ Hm) as Hb.
      assert (0 < length sep) by (destruct sep; [congruence | simpl; lia]).
      destruct front as [|f front].
      * injection H as _ H. exfalso. exact (genSplit_not_nil _ _ _ H).
      * injection H as <- H.
        apply IH in H; [|rewrite length_skipn; lia].
        destruct H as [Hfront Hlast]. split; [|exact Hlast].
        constructor; [|exact Hfront].
        rewrite length_firstn, Nat.min_l by lia.
        replace (m + length sep - length sep) with m by lia.
        apply Index_firstn, Hm.
    + destruct front as [|f [|g front]]; try discriminate H.
      injection H as <-. split; [constructor | exact Hm].
Qed.

Lemma SplitAfter_pieces s sep front last :
  sep <> [] ->
  SplitAfter s sep = front ++ [last] ->
  Forall (fun piece => Index piece sep = Some (length piece - length sep))
         front /\
  Index last sep = None.
Proof.
  intros Hsep H. apply (genSplit_pieces sep Hsep (length s) s); [lia | exact H].
Qed.

Lemma SplitAfter_concat s sep : concat (SplitAfter s sep) = s.
Proof. apply genSplit_concat. Qed.

Lemma SplitAfter_nil sep : SplitAfter [] sep = [[]].
Proof. reflexivity. Qed.

Lemma SplitAfter_none s sep : Index s sep = None -> SplitAfter s sep = [s].
Proof.
  intros H. unfold SplitAfter. destruct (length s); simpl; [reflexivity|].
  rewrite H. reflexivity.
Qed.

(** One instance of the separator, at the end of [body ++ sep]: two pieces. *)
Lemma SplitAfter_one body tail sep :
  sep <> [] ->
  Index (body ++ sep) sep = Some (length body) ->
  Index tail sep = None ->
  SplitAfter ((body ++ sep) ++ tail) sep = [body ++ sep; tail].
Proof.
  intros Hsep Hdoc Htail. unfold SplitAfter.
  assert (Hlen : length ((body ++ sep) ++ tail)
                 = S (length body + (length sep - 1) + length tail)).
  { rewrite !length_app. destruct sep; [congruence | simpl; lia]. }
  rewrite Hlen. simpl genSplit.
  rewrite (Index_app _ tail _ _ Hdoc).
  replace (length body + length sep) with (length (body ++ sep))
    by apply length_app.
  rewrite firstn_app, Nat.sub_diag, firstn_all, firstn_O, app_nil_r.
  rewrite skipn_app, Nat.sub_diag, skipn_all, skipn_O. simpl.
  f_equal.
  destruct (length body + (length sep - 1) + length tail); simpl;
    [reflexivity|]. rewrite Htail. reflexivity.
Qed.

(** ** Discovery *)

Section Discovery.
Variables World Metadata Resources Usage : Type.
Variable E : Env World Metadata Resources Usage.

Lemma splitJSONs_small out :
  length (SplitAfter out braceNewline) <= 1 ->
  splitJSONs out = SplitAfter out braceNewline.
Proof.
  intros H. unfold splitJSONs.
  destruct (Nat.ltb_spec 1 (length (SplitAfter out braceNewline)));
    [lia | reflexivity].
Qed.

Lemma splitJSONs_large out :
  1 < length (SplitAfter out braceNewline) ->
  splitJSONs out = removelast (SplitAfter out braceNewline).
Proof.
  intros H. unfold splitJSONs.
  destruct (Nat.ltb_spec 1 (length (SplitAfter out braceNewline)));
    [|lia].
  rewrite removelast_firstn_len. f_equal. lia.
Qed.

Lemma splitJSONs_oneDocument out doc : oneDocument out doc -> splitJSONs out = [doc].
Proof.
  intros [[-> Hnone] | (body & rest & Hdoc & Hidx & Hrest & ->)].
  - rewrite splitJSONs_small; rewrite (SplitAfter_none _ _ Hnone);
      [reflexivity | simpl; lia].
  - assert (Hs : SplitAfter (doc ++ rest) braceNewline = [doc; rest]).
    { subst doc. apply SplitAfter_one; [discriminate | assumption..]. }
    rewrite splitJSONs_large; rewrite Hs; [reflexivity | simpl; lia].
Qed.

(** The loop hands on what it has decoded so far. *)
Lemma decodeDirs_decoded pre rest infos configDirs workingDirs w :
  map (json_Unmarshal E) pre = map inl infos ->
  decodeDirs E (pre ++ rest) configDirs workingDirs w =
  decodeDirs E rest
    (configDirs ++ map (fun info => filepath_Dir E (ConfigPath info)) infos)
    (workingDirs ++ map WorkingDir infos) w.
Proof.
  revert infos configDirs workingDirs.
  induction pre as [|j pre IH]; intros [|info infos] cs ws H;
    try discriminate H.
  - simpl. rewrite !app_nil_r. reflexivity.
  - simpl in H. injection H as Hj Hpre.
    simpl. rewrite Hj, (IH infos) by assumption.
    rewrite <- !app_assoc. reflexivity.
Qed.

Lemma decodeDirs_lengths jsons configDirs workingDirs w :
  length configDirs = length workingDirs ->
  length (fst (fst (value (decodeDirs E jsons configDirs workingDirs w)))) =
  length (snd (fst (value (decodeDirs E jsons configDirs workingDirs w)))).
Proof.
  revert configDirs workingDirs.
  induction jsons as [|j jsons IH]; intros cs ws H; simpl.
  - exact H.
  - destruct (json_Unmarshal E j) as [info|err]; simpl.
    + apply IH. rewrite !length_app. simpl. lia.
    + exact H.
Qed.

(** What discovery returns once the command has printed [out]. *)
Lemma getProjectDirs_printed p w out w1 :
  env_Cmd E (discoveryOpts p) discoveryArgs w = (inl out, w1) ->
  value (getProjectDirs E p w) =
  value (decodeDirs E (splitJSONs out) [] [] w1).
Proof.
  intros H. unfold getProjectDirs, bind, emit, Cmd, call.
  rewrite H. destruct (decodeDirs E (splitJSONs out) [] [] w1) as [[r evs] w2].
  reflexivity.
Qed.

(** C2.  Discovery splits the output after every closing brace followed by
    a line break -- the pieces put together again are the output, every
    piece but the last holds that pair of bytes at its end and nowhere
    before, and the last piece holds none -- and drops the last piece
    exactly when there are several.  For a stream that
    holds one document, the one piece left is that document; it is decoded
    and returned. *)
Theorem discovery_trims_last_only_of_several :
  (forall out,
      let pieces := SplitAfter out braceNewline in
      concat pieces = out /\
      (forall front last,
          pieces = front ++ [last] ->
          Forall (fun piece =>
                    Index piece braceNewline = Some (length piece - 2)) front /\
          Index last braceNewline = None) /\
      (length pieces <= 1 -> splitJSONs out = pieces) /\
      (1 < length pieces -> splitJSONs out = removelast pieces)) /\
  (forall p w w1 out doc info,
      env_Cmd E (discoveryOpts p) discoveryArgs w = (inl out, w1) ->
      oneDocument out doc ->
      json_Unmarshal E doc = inl info ->
      splitJSONs out = [doc] /\
      value (getProjectDirs E p w) =
      ([filepath_Dir E (ConfigPath info)], [WorkingDir info], None)).
Proof.
  split.
  - intros out pieces. subst pieces. split; [apply SplitAfter_concat|].
    split; [|split; [apply splitJSONs_small | apply splitJSONs_large]].
    intros front last H.
    apply (SplitAfter_pieces out braceNewline front last); [discriminate|].
    exact H.
  - intros p w w1 out doc info Hcmd Hone Hdec.
    pose proof (splitJSONs_oneDocument _ _ Hone) as Hs.
    split; [exact Hs|].
    rewrite (getProjectDirs_printed _ _ _ _ Hcmd), Hs.
    simpl. rewrite Hdec. reflexivity.
Qed.

(** C6.  When a piece of the stream does not decode, discovery stops there
    and returns the directories of the pieces decoded before it, with the
    decoder's error. *)
Theorem discovery_decode_error_keeps_earlier p w w1 out pre j post infos err :
  env_Cmd E (discoveryOpts p) discoveryArgs w = (inl out, w1) ->
  splitJSONs out = pre ++ j :: post ->
  map (json_Unmarshal E) pre = map inl infos ->
  json_Unmarshal E j = inr err ->
  value (getProjectDirs E p w) =
  (map (fun info => filepath_Dir E (ConfigPath info)) infos,
   map WorkingDir infos,
   Some err).
Proof.
  intros Hcmd Hsplit Hpre Hj.
  rewrite (getProjectDirs_printed _ _ _ _ Hcmd), Hsplit.
  rewrite (decodeDirs_decoded _ _ _ _ _ _ Hpre).
  simpl. rewrite Hj. reflexivity.
Qed.

(** C9.  The two sequences discovery returns have the same length, on every
    return path. *)
Theorem discovery_lengths_agree p w :
  length (fst (fst (value (getProjectDirs E p w)))) =
  length (snd (fst (value (getProjectDirs E p w)))).
Proof.
  destruct (env_Cmd E (discoveryOpts p) discoveryArgs w) as [[out|err] w1]
    eqn:Hcmd.
  - rewrite (getProjectDirs_printed _ _ _ _ Hcmd).
    apply decodeDirs_lengths. reflexivity.
  - unfold getProjectDirs, bind, emit, Cmd, call. rewrite Hcmd. reflexivity.
Qed.

(** C10.  When the command prints nothing, the split gives one empty piece,
    which is kept; the decoder rejects it (Go's [json.Unmarshal] answers
    "unexpected end of JSON input" on empty input), and discovery returns
    two empty sequences with that error. *)
Theorem discovery_of_empty_output_fails p w w1 err :
  env_Cmd E (discoveryOpts p) discoveryArgs w = (inl [], w1) ->
  json_Unmarshal E [] = inr err ->
  splitJSONs [] = [[]] /\
  value (getProjectDirs E p w) = ([], [], Some err).
Proof.
  intros Hcmd Hdec. split; [reflexivity|].
  rewrite (getProjectDirs_printed _ _ _ _ Hcmd).
  simpl. rewrite Hdec. reflexivity.
Qed.

End Discovery.

(** ** Reading traces *)

Lemma showCalls_app a b : showCalls (a ++ b) = showCalls a ++ showCalls b.
Proof.
  induction a as [|e a IH]; simpl; [reflexivity|].
  destruct e; simpl; rewrite ?IH; reflexivity.
Qed.

Lemma buildCalls_app a b : buildCalls (a ++ b) = buildCalls a ++ buildCalls b.
Proof.
  induction a as [|e a IH]; simpl; [reflexivity|].
  destruct e; simpl; rewrite ?IH; reflexivity.
Qed.

Lemma planCalls_app a b : planCalls (a ++ b) = planCalls a ++ planCalls b.
Proof.
  induction a as [|e a IH]; simpl; [reflexivity|].
  destruct e; simpl; rewrite ?IH; reflexivity.
Qed.

Lemma removeCalls_app a b :
  removeCalls (a ++ b) = removeCalls a ++ removeCalls b.
Proof.
  induction a as [|e a IH]; simpl; [reflexivity|].
  destruct e; simpl; rewrite ?IH; reflexivity.
Qed.

Lemma buildFailure_app a b :
  buildFailure (a ++ b) =
  match buildFailure a with Some err => Some err | None => buildFailure b end.
Proof.
  induction a as [|e a IH]; simpl; [reflexivity|].
  destruct e as [| | | | | |path r| | | |]; simpl; try exact IH.
  destruct r; [exact IH | reflexivity].
Qed.

(** Removals and warnings are neither show, build nor plan calls. *)
Lemma cleanup_events_silent evs :
  forallb isCleanupEvent evs = true ->
  showCalls evs = [] /\ buildCalls evs = [] /\ planCalls evs = [] /\
  buildFailure evs = None.
Proof.
  induction evs as [|e evs IH]; simpl; [tauto|].
  intros H. apply andb_true_iff in H as [He H].
  destruct e; try discriminate He; simpl; apply IH, H.
Qed.

(** ** Cleanup *)

Section Cleanup.
Variables World Metadata Resources Usage : Type.
Variable E : Env World Metadata Resources Usage.

Lemma os_Remove_run name w :
  os_Remove E name w =
  (fst (env_Remove E name w),
   [EvRemove name (fst (env_Remove E name w))],
   snd (env_Remove E name w)).
Proof.
  unfold os_Remove, call. destruct (env_Remove E name w); reflexivity.
Qed.

(** The loop of [cleanupPlanFiles] removes the files of the directories in
    order; it ends after the last one, or at the first removal that fails. *)
Lemma removeEach_trace paths planFile w :
  events (removeEach E paths planFile w) =
  map (fun c => EvRemove (fst c) (snd c))
      (removeCalls (events (removeEach E paths planFile w))) /\
  match value (removeEach E paths planFile w) with
  | None =>
      removeCalls (events (removeEach E paths planFile w)) =
      map (fun d => (filepath_Join E d planFile, None)) paths
  | Some err =>
      exists done d rest,
        paths = done ++ d :: rest /\
        removeCalls (events (removeEach E paths planFile w)) =
        map (fun d => (filepath_Join E d planFile, None)) done
          ++ [(filepath_Join E d planFile, Some err)]
  end.
Proof.
  revert w. induction paths as [|d paths IH]; intros w.
  - simpl. split; reflexivity.
  - cbn [removeEach]. rewrite bind_run, os_Remove_run. cbn [value events final fst snd].
    destruct (env_Remove E (filepath_Join E d planFile) w) as [[err|] w1];
      cbn [fst snd].
    + simpl. split; [reflexivity|].
      exists [], d, paths. split; reflexivity.
    + specialize (IH w1). destruct IH as [IHev IHval].
      cbn [app removeCalls map fst snd]. split.
      * f_equal. exact IHev.
      * destruct (value (removeEach E paths planFile w1)) as [err|].
        -- destruct IHval as (done & d' & rest & -> & Hcalls).
           exists (d :: done), d', rest. split; [reflexivity|].
           rewrite Hcalls. reflexivity.
        -- rewrite IHval. reflexivity.
Qed.

(** C8.  [cleanupPlanFiles] with an empty file name returns nil and touches
    nothing.  Otherwise it does nothing but remove, in order, the file of
    each directory; when it returns nil every directory has been handled,
    and when it returns an error that error is the answer of the last
    removal made, every removal before it succeeded, and the directories
    after it were not attempted. *)
Theorem cleanupPlanFiles_removes_until_first_failure paths planFile w :
  (planFile = EmptyString ->
   cleanupPlanFiles E paths planFile w = (None, [], w)) /\
  (planFile <> EmptyString ->
   let r := cleanupPlanFiles E paths planFile w in
   events r = map (fun c => EvRemove (fst c) (snd c)) (removeCalls (events r)) /\
   match value r with
   | None =>
       removeCalls (events r) =
       map (fun d => (filepath_Join E d planFile, None)) paths
   | Some err =>
       exists done d rest,
         paths = done ++ d :: rest /\
         removeCalls (events r) =
         map (fun d => (filepath_Join E d planFile, None)) done
           ++ [(filepath_Join E d planFile, Some err)]
   end).
Proof.
  unfold cleanupPlanFiles. split.
  - intros ->. reflexivity.
  - intros Hne. apply String.eqb_neq in Hne. rewrite Hne.
    apply removeEach_trace.
Qed.

End Cleanup.

(** ** The per-directory loops *)

Lemma skipn_nth_error {A} (l : list A) i x :
  nth_error l i = Some x -> skipn i l = x :: skipn (S i) l.
Proof.
  revert i; induction l as [|a l IH]; intros [|i] H; try discriminate H.
  - injection H as ->. reflexivity.
  - apply IH in H. exact H.
Qed.

Lemma showCalls_steps steps :
  showCalls (flat_map stepEvents steps) =
  map (fun s => (st_opts s, st_planFile s, inl (st_out s))) steps.
Proof. induction steps as [|s steps IH]; simpl; rewrite ?IH; reflexivity. Qed.

Lemma buildCalls_steps steps :
  buildCalls (flat_map stepEvents steps) =
  map (fun s => (st_path s, inl (st_opts s))) steps.
Proof. induction steps as [|s steps IH]; simpl; rewrite ?IH; reflexivity. Qed.

Lemma planCalls_steps steps : planCalls (flat_map stepEvents steps) = [].
Proof. induction steps as [|s steps IH]; simpl; rewrite ?IH; reflexivity. Qed.

Lemma buildFailure_steps steps : buildFailure (flat_map stepEvents steps) = None.
Proof. induction steps as [|s steps IH]; simpl; rewrite ?IH; reflexivity. Qed.

Lemma showCalls_script steps stop :
  showCalls (flat_map stepEvents steps ++ stopEvents stop) =
  map (fun s => (st_opts s, st_planFile s, inl (st_out s))) steps
    ++ match stop with
       | ShowFailed _ opts planFile err => [(opts, planFile, inr err)]
       | _ => []
       end.
Proof.
  rewrite showCalls_app, showCalls_steps. destruct stop; reflexivity.
Qed.

Lemma buildCalls_script steps stop :
  buildCalls (flat_map stepEvents steps ++ stopEvents stop) =
  map (fun s => (st_path s, inl (st_opts s))) steps
    ++ match stop with
       | Completed => []
       | BuildFailed path err => [(path, inr err)]
       | ShowFailed path opts _ _ | IndexPanic path opts => [(path, inl opts)]
       end.
Proof.
  rewrite buildCalls_app, buildCalls_steps. destruct stop; reflexivity.
Qed.

(** A list of successful show calls does not end with a failed one. *)
Lemma successful_shows_no_failure steps earlier opts planFile err :
  map (fun s => (st_opts s, st_planFile s, @inl bytes error (st_out s))) steps
    ++ [] = earlier ++ [(opts, planFile, inr err)] -> False.
Proof.
  rewrite app_nil_r. intros H.
  assert (Hin : In (opts, planFile, @inr bytes error err)
                   (earlier ++ [(opts, planFile, inr err)]))
    by (apply in_or_app; right; left; reflexivity).
  rewrite <- H in Hin. apply in_map_iff in Hin as (s & Hs & _).
  discriminate Hs.
Qed.

Section Loops.
Variables World Metadata Resources Usage : Type.
Variable E : Env World Metadata Resources Usage.

Lemma call_run A (f : World -> A * World) (ev : A -> Event) w :
  call f ev w = (fst (f w), [ev (fst (f w))], snd (f w)).
Proof. unfold call. destruct (f w); reflexivity. Qed.

Lemma deferConfigFile_pushes opts ds :
  exists extra,
    deferConfigFile opts ds = extra ++ ds /\
    forallb isDeferRemove extra = true.
Proof.
  unfold deferConfigFile.
  destruct (String.eqb (TerraformConfigFile opts) EmptyString).
  - exists []. split; reflexivity.
  - exists [DeferRemove (TerraformConfigFile opts)]. split; reflexivity.
Qed.

(** A run of the persisted-state loop: some finished turns, then the end. *)
Lemma stateLoop_script p paths outs ds w :
  exists steps stop rest extra,
    paths = map st_path steps ++ stopPath stop ++ rest /\
    (stop = Completed -> rest = []) /\
    events (stateLoop E p paths outs ds w) =
      flat_map stepEvents steps ++ stopEvents stop /\
    Returned (fst (value (stateLoop E p paths outs ds w))) =
      loopValue outs steps stop /\
    Forall (fun f => f = EmptyString)
           (map st_planFile steps ++ stopPlanFile stop) /\
    snd (value (stateLoop E p paths outs ds w)) = extra ++ ds /\
    forallb isDeferRemove extra = true.
Proof.
  revert outs ds w. induction paths as [|path paths IH]; intros outs ds w.
  - exists [], Completed, [], []. simpl. rewrite ?app_nil_r.
    repeat split; constructor.
  - cbn [stateLoop]. unfold buildCommandOpts.
    rewrite bind_run, call_run. unfold value, events, final in *; cbn [fst snd].
    destruct (env_buildCommandOpts E p path w) as [[opts|err] w1];
      cbn [fst snd].
    + unfold runShow.
      rewrite bind_run, call_run. unfold value, events, final in *; cbn [fst snd].
      destruct (deferConfigFile_pushes opts ds) as (ex0 & Hex0 & Hrm0).
      destruct (env_runShow E p opts EmptyString w1) as [[out|err] w2];
        cbn [fst snd].
      * destruct (IH (outs ++ [out]) (deferConfigFile opts ds) w2)
          as (steps & stop & rest & extra & Hp & Hc & Hev & Hval & Hpf
              & Hds & Hrm).
        exists (mkStep path opts EmptyString out :: steps), stop, rest,
               (extra ++ ex0).
        repeat split.
        -- simpl. f_equal. exact Hp.
        -- exact Hc.
        -- rewrite Hev. reflexivity.
        -- rewrite Hval. destruct stop; simpl; rewrite <- ?app_assoc;
             reflexivity.
        -- simpl. constructor; [reflexivity | exact Hpf].
        -- rewrite Hds, Hex0. apply app_assoc.
        -- rewrite forallb_app, Hrm, Hrm0. reflexivity.
      * exists [], (ShowFailed path opts EmptyString err), paths, ex0.
        simpl. rewrite ?app_nil_r.
        repeat split; try assumption; try discriminate.
        constructor; [reflexivity | constructor].
    + exists [], (BuildFailed path err), paths, [].
      simpl. repeat split; try discriminate. constructor.
Qed.

(** A run of the fresh-plan loop from index [i]: the same, with the plan
    file of every show call taken from the working directory of the same
    index. *)
Lemma planLoop_script p workingDirs planFile i paths outs ds w :
  exists steps stop rest extra,
    paths = map st_path steps ++ stopPath stop ++ rest /\
    (stop = Completed -> rest = []) /\
    events (planLoop E p workingDirs planFile i paths outs ds w) =
      flat_map stepEvents steps ++ stopEvents stop /\
    fst (value (planLoop E p workingDirs planFile i paths outs ds w)) =
      loopValue outs steps stop /\
    map st_planFile steps ++ stopPlanFile stop =
      map (fun wd => filepath_Join E wd planFile)
          (firstn (length steps + length (stopPlanFile stop))
                  (skipn i workingDirs)) /\
    length steps + length (stopPlanFile stop) <= length (skipn i workingDirs) /\
    snd (value (planLoop E p workingDirs planFile i paths outs ds w)) =
      extra ++ ds /\
    forallb isDeferRemove extra = true.
Proof.
  revert i outs ds w. induction paths as [|path paths IH]; intros i outs ds w.
  - exists [], Completed, [], []. simpl. rewrite ?app_nil_r.
    repeat split; lia.
  - cbn [planLoop]. unfold buildCommandOpts.
    rewrite bind_run, call_run. unfold value, events, final in *; cbn [fst snd].
    destruct (env_buildCommandOpts E p path w) as [[opts|err] w1];
      cbn [fst snd].
    + destruct (deferConfigFile_pushes opts ds) as (ex0 & Hex0 & Hrm0).
      destruct (nth_error workingDirs i) as [wd|] eqn:Hwd.
      * unfold runShow.
        rewrite bind_run, call_run. unfold value, events, final in *; cbn [fst snd].
        pose proof (skipn_nth_error _ _ _ Hwd) as Hskip.
        destruct (env_runShow E p opts (filepath_Join E wd planFile) w1)
          as [[out|err] w2]; cbn [fst snd].
        -- destruct (IH (S i) (outs ++ [out]) (deferConfigFile opts ds) w2)
             as (steps & stop & rest & extra & Hp & Hc & Hev & Hval & Hpf
                 & Hlen & Hds & Hrm).
           exists (mkStep path opts (filepath_Join E wd planFile) out :: steps),
                  stop, rest, (extra ++ ex0).
           repeat split.
           ++ simpl. f_equal. exact Hp.
           ++ exact Hc.
           ++ rewrite Hev. reflexivity.
           ++ rewrite Hval. destruct stop; simpl; rewrite <- ?app_assoc;
                reflexivity.
           ++ rewrite Hskip. simpl. f_equal. exact Hpf.
           ++ rewrite Hskip. cbn [length Nat.add]. lia.
           ++ rewrite Hds, Hex0. apply app_assoc.
           ++ rewrite forallb_app, Hrm, Hrm0. reflexivity.
        -- exists [], (ShowFailed path opts (filepath_Join E wd planFile) err),
                  paths, ex0.
           rewrite Hskip. simpl. rewrite ?app_nil_r.
           repeat split; try assumption; try discriminate. lia.
      * exists [], (IndexPanic path opts), paths, ex0.
        simpl. rewrite ?app_nil_r.
        repeat split; try assumption; try discriminate. lia.
    + exists [], (BuildFailed path err), paths, [].
      simpl. repeat split; try discriminate. lia.
Qed.

End Loops.

(** ** Deferred calls *)

Section Defers.
Variables World Metadata Resources Usage : Type.
Variable E : Env World Metadata Resources Usage.

Lemma withDefers_run A (body : M World (A * list Deferred)) w :
  withDefers E body w =
  (fst (value (body w)),
   events (body w) ++ events (unwind E (snd (value (body w))) (final (body w))),
   final (unwind E (snd (value (body w))) (final (body w)))).
Proof.
  unfold withDefers. rewrite bind_run.
  destruct (value (body w)) as [a ds]. rewrite bind_run. simpl.
  rewrite app_nil_r. reflexivity.
Qed.

Lemma runDeferred_cleanup_run workingDirs planFile w :
  runDeferred E (DeferCleanup workingDirs planFile) w =
  (tt,
   events (cleanupPlanFiles E workingDirs planFile w)
     ++ cleanupWarning (value (cleanupPlanFiles E workingDirs planFile w)),
   final (cleanupPlanFiles E workingDirs planFile w)).
Proof.
  cbn [runDeferred]. rewrite bind_run.
  destruct (value (cleanupPlanFiles E workingDirs planFile w)); reflexivity.
Qed.

Lemma cleanupPlanFiles_events_cleanup paths planFile w :
  forallb isCleanupEvent (events (cleanupPlanFiles E paths planFile w)) = true.
Proof.
  unfold cleanupPlanFiles.
  destruct (String.eqb planFile EmptyString); [reflexivity|].
  destruct (removeEach_trace World Metadata Resources Usage E paths planFile w)
    as [-> _].
  induction (removeCalls (events (removeEach E paths planFile w)));
    simpl; [reflexivity | assumption].
Qed.

Lemma runDeferred_events_cleanup d w :
  forallb isCleanupEvent (events (runDeferred E d w)) = true.
Proof.
  destruct d as [name|workingDirs planFile].
  - cbn [runDeferred]. rewrite bind_run, os_Remove_run. reflexivity.
  - rewrite runDeferred_cleanup_run. cbn [events fst snd].
    rewrite forallb_app, cleanupPlanFiles_events_cleanup.
    destruct (value (cleanupPlanFiles E workingDirs planFile w)); reflexivity.
Qed.

Lemma unwind_events_cleanup ds w :
  forallb isCleanupEvent (events (unwind E ds w)) = true.
Proof.
  revert w. induction ds as [|d ds IH]; intros w; [reflexivity|].
  cbn [unwind]. rewrite events_bind, forallb_app.
  rewrite runDeferred_events_cleanup, IH. reflexivity.
Qed.

Lemma unwind_app ds1 ds2 w :
  unwind E (ds1 ++ ds2) w =
  (tt,
   events (unwind E ds1 w) ++ events (unwind E ds2 (final (unwind E ds1 w))),
   final (unwind E ds2 (final (unwind E ds1 w)))).
Proof.
  revert w. induction ds1 as [|d ds1 IH]; intros w.
  - simpl. destruct (unwind E ds2 w) as [[[] evs] w']. reflexivity.
  - cbn [app unwind]. rewrite !bind_run, IH.
    cbn [value events final fst snd]. rewrite app_assoc. reflexivity.
Qed.

(** Unwinding a stack of file removals logs nothing. *)
Lemma unwind_removes_no_warning ds w :
  forallb isDeferRemove ds = true -> warnings (events (unwind E ds w)) = [].
Proof.
  revert w. induction ds as [|d ds IH]; intros w H; [reflexivity|].
  simpl in H. apply andb_true_iff in H as [Hd H].
  destruct d as [name|]; [|discriminate Hd].
  cbn [unwind runDeferred]. rewrite !bind_run, os_Remove_run.
  cbn [value events final fst snd app warnings]. apply IH, H.
Qed.

End Defers.

(** ** The two generators *)

Section Generators.
Variables World Metadata Resources Usage : Type.
Variable E : Env World Metadata Resources Usage.

Local Abbreviation call_run := (call_run World).
Local Abbreviation withDefers_run := (withDefers_run World Metadata Resources Usage E).
Local Abbreviation unwind_events_cleanup :=
  (unwind_events_cleanup World Metadata Resources Usage E).

(** A run of [generateStateJSONs]: the checks fail, or the loop runs. *)
Lemma generateStateJSONs_script p configDirs w :
  (exists err,
      value (generateStateJSONs E p configDirs w) = ([], Some err) /\
      showCalls (events (generateStateJSONs E p configDirs w)) = [] /\
      buildCalls (events (generateStateJSONs E p configDirs w)) = [] /\
      buildFailure (events (generateStateJSONs E p configDirs w)) = None) \/
  (exists steps stop rest,
      configDirs = map st_path steps ++ stopPath stop ++ rest /\
      (stop = Completed -> rest = []) /\
      Returned (value (generateStateJSONs E p configDirs w)) =
        loopValue [] steps stop /\
      Forall (fun f => f = EmptyString)
             (map st_planFile steps ++ stopPlanFile stop) /\
      showCalls (events (generateStateJSONs E p configDirs w)) =
        showCalls (flat_map stepEvents steps ++ stopEvents stop) /\
      buildCalls (events (generateStateJSONs E p configDirs w)) =
        buildCalls (flat_map stepEvents steps ++ stopEvents stop) /\
      buildFailure (events (generateStateJSONs E p configDirs w)) =
        buildFailure (stopEvents stop)).
Proof.
  unfold generateStateJSONs. rewrite withDefers_run.
  unfold generateStateJSONs_body, checks.
  rewrite bind_run, call_run.
  unfold value, events, final; cbn [fst snd].
  destruct (env_checks E (tp_DirProvider p) w) as [[err|] w1]; cbn [fst snd].
  - left. exists err. simpl. repeat split.
  - right. rewrite bind_run. unfold value, events, final; cbn [fst snd].
    unfold emit. cbn [fst snd].
    set (run := stateLoop E (tp_DirProvider p) configDirs [] [] w1).
    destruct (stateLoop_script World Metadata Resources Usage E
                (tp_DirProvider p) configDirs [] [] w1)
      as (steps & stop & rest & extra & Hp & Hc & Hev & Hval & Hpf & Hds & Hrm).
    fold run in Hev, Hval, Hds. unfold value, events in Hev, Hval, Hds.
    exists steps, stop, rest.
    pose proof (unwind_events_cleanup (snd (fst (fst run))) (snd run)) as Hun.
    apply cleanup_events_silent in Hun as (Hs & Hb & _ & Hf).
    unfold events in Hs, Hb, Hf.
    repeat split; try assumption.
    + cbn [app showCalls]. rewrite showCalls_app, Hs, app_nil_r, Hev.
      reflexivity.
    + cbn [app buildCalls]. rewrite buildCalls_app, Hb, app_nil_r, Hev.
      reflexivity.
    + cbn [app buildFailure]. rewrite buildFailure_app, Hf, Hev.
      rewrite buildFailure_app, buildFailure_steps.
      destruct (buildFailure (stopEvents stop)); reflexivity.
Qed.

(** C5, as the code has it.  [generateStateJSONs] handles the directories in
    the order given, one at a time: the options of each are built and then
    shown, with no plan file.  On success it returns one output per
    directory, in that order.  When the show call of directory k fails it
    stops and returns the k-1 outputs collected so far, with the error.
    When building the options of a directory fails it stops and returns no
    outputs, with the error. *)
Theorem state_outputs_in_directory_order p configDirs w :
  let r := generateStateJSONs E p configDirs w in
  let builds := buildCalls (events r) in
  let shows := showCalls (events r) in
  (exists rest, configDirs = map fst builds ++ rest) /\
  map snd builds =
    map (fun c => inl (fst (fst c))) shows
      ++ match buildFailure (events r) with
         | Some err => [inr err]
         | None => []
         end /\
  Forall (fun c => snd (fst c) = EmptyString) shows /\
  (forall outs,
      value r = (outs, None) ->
      map fst builds = configDirs /\
      map snd shows = map inl outs /\
      length outs = length configDirs) /\
  (forall earlier opts planFile err,
      shows = earlier ++ [(opts, planFile, inr err)] ->
      exists outs,
        value r = (outs, Some err) /\
        map snd earlier = map inl outs /\
        length outs = length earlier) /\
  (forall err,
      buildFailure (events r) = Some err -> value r = ([], Some err)).
Proof.
  intros r builds shows. subst r builds shows.
  destruct (generateStateJSONs_script p configDirs w)
    as [(err0 & Hval & -> & -> & ->)
       |(steps & stop & rest & Hp & Hc & Hval & Hpf & -> & -> & ->)].
  - rewrite Hval. repeat split; try discriminate.
    + exists configDirs. reflexivity.
    + constructor.
    + intros earlier opts planFile err H.
      destruct earlier; discriminate H.
  - rewrite showCalls_script, buildCalls_script.
    destruct stop as [|path err0|path opts0 planFile0 err0|path opts0];
      cbn [loopValue stopPath stopPlanFile stopEvents buildFailure app] in *;
      try discriminate Hval; injection Hval as Hval; rewrite Hval;
      rewrite ?app_nil_r in *.
    + rewrite (Hc eq_refl), app_nil_r in Hp.
      repeat split; try discriminate.
      * exists []. rewrite app_nil_r, map_map. exact Hp.
      * rewrite !map_map. reflexivity.
      * apply Forall_map. apply Forall_map in Hpf.
        revert Hpf. apply Forall_impl. intros s H. exact H.
      * rewrite map_map. symmetry. exact Hp.
      * injection H as <-. rewrite !map_map. reflexivity.
      * injection H as <-. rewrite Hp, !length_map. reflexivity.
      * intros earlier opts planFile err H. exfalso.
        apply (successful_shows_no_failure steps earlier opts planFile err).
        rewrite app_nil_r. exact H.
    + repeat split; try discriminate.
      * exists rest. rewrite map_app, map_map. simpl. rewrite Hp.
        rewrite <- app_assoc. reflexivity.
      * rewrite map_app, !map_map. reflexivity.
      * apply Forall_map. apply Forall_map in Hpf.
        revert Hpf. apply Forall_impl. intros s H. exact H.
      * intros earlier opts planFile err H. exfalso.
        apply (successful_shows_no_failure steps earlier opts planFile err).
        rewrite app_nil_r. exact H.
      * intros err [= <-]. reflexivity.
    + repeat split; try discriminate.
      * exists rest. rewrite map_app, map_map. simpl. rewrite Hp.
        rewrite <- app_assoc. reflexivity.
      * rewrite !map_app, !map_map. reflexivity.
      * apply Forall_app in Hpf as [Hpf Hlast].
        apply Forall_app. split.
        -- apply Forall_map. apply Forall_map in Hpf.
           revert Hpf. apply Forall_impl. intros s H. exact H.
        -- inversion Hlast; subst. repeat constructor.
      * intros earlier opts planFile err H.
        apply app_inj_tail in H as [<- [= <- <- <-]].
        exists (map st_out steps). rewrite !map_map, !length_map.
        repeat split.
Qed.

Lemma planCalls_script steps stop :
  planCalls (flat_map stepEvents steps ++ stopEvents stop) = [].
Proof.
  rewrite planCalls_app, planCalls_steps. destruct stop; reflexivity.
Qed.

Lemma warnings_script steps stop :
  warnings (flat_map stepEvents steps ++ stopEvents stop) = [].
Proof.
  induction steps as [|s steps IH]; simpl; [destruct stop; reflexivity|].
  exact IH.
Qed.

(** A run of the body of [generatePlanJSONs]: either it ends before the plan
    command, or the plan command runs, the cleanup is deferred, and one of
    the three continuations follows. *)
Lemma generatePlanJSONs_body_script p configDirs workingDirs w :
  let b := generatePlanJSONs_body E p configDirs workingDirs w in
  (planCalls (events b) = [] /\ showCalls (events b) = [] /\
   snd (value b) = [] /\ warnings (events b) = [] /\
   exists err,
     fst (value b) = Returned ([], Some err) /\
     forall e, buildFailure (events b) = Some e -> e = err) \/
  (exists opts planFile planJSON perr after extra root,
      events b =
        [EvChecks None; EvBuildOpts (dp_Path p) (inl opts);
         EvSpinnerNew "Running terragrunt run-all plan";
         EvPlan opts true (planFile, planJSON, perr)] ++ after /\
      snd (value b) = extra ++ DeferCleanup workingDirs planFile :: root /\
      forallb isDeferRemove extra = true /\
      forallb isDeferRemove root = true /\
      planCalls after = [] /\ warnings after = [] /\
      match perr with
      | Some err => after = [] /\ fst (value b) = Returned ([], Some err)
      | None =>
          if Nat.ltb 0 (length planJSON)
          then after = [] /\ fst (value b) = Returned ([planJSON], None)
          else
            exists steps stop rest,
              after = EvSpinnerNew (showSpinnerMsg configDirs)
                        :: flat_map stepEvents steps ++ stopEvents stop /\
              configDirs = map st_path steps ++ stopPath stop ++ rest /\
              (stop = Completed -> rest = []) /\
              fst (value b) = loopValue [] steps stop /\
              map st_planFile steps ++ stopPlanFile stop =
                map (fun wd => filepath_Join E wd planFile)
                    (firstn (length steps + length (stopPlanFile stop))
                            workingDirs) /\
              length steps + length (stopPlanFile stop) <= length workingDirs
      end).
Proof.
  intros b. subst b.
  unfold generatePlanJSONs_body, bind, checks, buildCommandOpts, runPlan,
    call, emit, ret, value, events, final.
  destruct (env_checks E p w) as [[err|] w1]; cbn [fst snd app].
  { left. repeat split. exists err. split; [reflexivity | discriminate]. }
  destruct (env_buildCommandOpts E p (dp_Path p) w1) as [[opts|err] w2];
    cbn [fst snd app].
  2:{ left. repeat split. exists err. split; [reflexivity|].
      simpl. intros e [= <-]. reflexivity. }
  destruct (env_runPlan E p opts true w2) as [[[planFile planJSON] perr] w3].
  right.
  destruct (deferConfigFile_pushes opts []) as (root & Hroot & Hrm).
  rewrite app_nil_r in Hroot. rewrite Hroot.
  destruct perr as [err|].
  { exists opts, planFile, planJSON, (Some err), [], [], root.
    cbn [fst snd app]. repeat split; assumption. }
  destruct (Nat.ltb 0 (length planJSON)) eqn:Hlen.
  { exists opts, planFile, planJSON, None, [], [], root.
    cbn [fst snd app]. rewrite Hlen. repeat split; assumption. }
  destruct (planLoop_script World Metadata Resources Usage E p workingDirs
              planFile 0 configDirs []
              (DeferCleanup workingDirs planFile :: root) w3)
    as (steps & stop & rest & extra & Hp & Hc & Hev & Hval & Hpf & Hn & Hds
        & Hex).
  unfold value, events in Hev, Hval, Hds. cbn [skipn] in Hpf, Hn.
  destruct (planLoop E p workingDirs planFile 0 configDirs []
              (DeferCleanup workingDirs planFile :: root) w3)
    as [[[v ds] evs] w4].
  cbn [fst snd] in *. subst evs v ds.
  exists opts, planFile, planJSON, None,
    (EvSpinnerNew (showSpinnerMsg configDirs)
       :: flat_map stepEvents steps ++ stopEvents stop), extra, root.
  rewrite Hlen. repeat split; try assumption.
  - apply planCalls_script.
  - apply warnings_script.
  - exists steps, stop, rest. repeat split; assumption.
Qed.

(** The trace of [generatePlanJSONs]: the body, then the unwinding. *)
Lemma generatePlanJSONs_run p configDirs workingDirs w :
  value (generatePlanJSONs E p configDirs workingDirs w) =
    fst (value (generatePlanJSONs_body E p configDirs workingDirs w)) /\
  events (generatePlanJSONs E p configDirs workingDirs w) =
    events (generatePlanJSONs_body E p configDirs workingDirs w)
      ++ events
           (unwind E
              (snd (value (generatePlanJSONs_body E p configDirs workingDirs w)))
              (final (generatePlanJSONs_body E p configDirs workingDirs w))).
Proof.
  unfold generatePlanJSONs. rewrite withDefers_run. split; reflexivity.
Qed.

(** C4, as the code has it.  In both generators, when building command
    options fails the call returns no outputs -- not the ones already
    collected -- together with the error. *)
Theorem option_build_failure_returns_no_outputs :
  (forall p configDirs w err,
      buildFailure (events (generateStateJSONs E p configDirs w)) = Some err ->
      value (generateStateJSONs E p configDirs w) = ([], Some err)) /\
  (forall p configDirs workingDirs w err,
      buildFailure (events (generatePlanJSONs E p configDirs workingDirs w))
        = Some err ->
      value (generatePlanJSONs E p configDirs workingDirs w)
        = Returned ([], Some err)).
Proof.
  split.
  - intros p configDirs w err.
    destruct (generateStateJSONs_script p configDirs w)
      as [(err0 & _ & _ & _ & ->)
         |(steps & stop & rest & _ & _ & Hval & _ & _ & _ & ->)];
      [discriminate|].
    destruct stop; simpl; try discriminate.
    intros [= <-]. simpl in Hval. injection Hval as ->. reflexivity.
  - intros p configDirs workingDirs w err.
    destruct (generatePlanJSONs_run p configDirs workingDirs w) as [-> ->].
    pose proof (unwind_events_cleanup
      (snd (value (generatePlanJSONs_body E p configDirs workingDirs w)))
      (final (generatePlanJSONs_body E p configDirs workingDirs w))) as Hun.
    apply cleanup_events_silent in Hun as (_ & _ & _ & Hbf).
    rewrite buildFailure_app, Hbf.
    destruct (generatePlanJSONs_body_script p configDirs workingDirs w)
      as [(_ & _ & _ & _ & err0 & -> & Hsame)
         |(opts & pf & pj & perr & after & extra & root & -> & _ & _ & _
           & _ & _ & Hcase)].
    + intros H.
      destruct (buildFailure
                  (events (generatePlanJSONs_body E p configDirs workingDirs w)))
        as [e|]; [|discriminate H].
      injection H as <-. rewrite (Hsame e eq_refl). reflexivity.
    + cbn [app buildFailure].
      destruct perr as [perr|]; [destruct Hcase as [-> _]; discriminate|].
      destruct (Nat.ltb 0 (length pj));
        [destruct Hcase as [-> _]; discriminate|].
      destruct Hcase as (steps & stop & rest & -> & _ & _ & -> & _).
      cbn [buildFailure]. rewrite buildFailure_app, buildFailure_steps.
      destruct stop; simpl; try discriminate.
      intros [= <-]. reflexivity.
Qed.

End Generators.

(** ** Cleanup after the plan *)

Lemma warnings_app a b : warnings (a ++ b) = warnings a ++ warnings b.
Proof.
  induction a as [|e a IH]; simpl; [reflexivity|].
  destruct e; simpl; rewrite ?IH; reflexivity.
Qed.

Section PlanCleanup.
Variables World Metadata Resources Usage : Type.
Variable E : Env World Metadata Resources Usage.

(** The body of [generatePlanJSONs] never calls [os.Remove]. *)
Lemma planLoop_withRemove remove p workingDirs planFile i paths outs ds w :
  planLoop (withRemove E remove) p workingDirs planFile i paths outs ds w =
  planLoop E p workingDirs planFile i paths outs ds w.
Proof.
  revert i outs ds w. induction paths as [|path paths IH]; intros i outs ds w;
    [reflexivity|].
  cbn [planLoop]. unfold bind.
  change (buildCommandOpts (withRemove E remove)) with (buildCommandOpts E).
  destruct (buildCommandOpts E p path w) as [[[opts|err] e1] w1];
    [|reflexivity].
  destruct (nth_error workingDirs i) as [wd|]; [|reflexivity].
  change (runShow (withRemove E remove)) with (runShow E).
  change (filepath_Join (withRemove E remove)) with (filepath_Join E).
  destruct (runShow E p opts (filepath_Join E wd planFile) w1)
    as [[[out|err] e2] w2]; [|reflexivity].
  rewrite IH. reflexivity.
Qed.

Lemma generatePlanJSONs_body_withRemove remove p configDirs workingDirs w :
  generatePlanJSONs_body (withRemove E remove) p configDirs workingDirs w =
  generatePlanJSONs_body E p configDirs workingDirs w.
Proof.
  unfold generatePlanJSONs_body, bind.
  change (checks (withRemove E remove)) with (checks E).
  destruct (checks E p w) as [[[err|] e1] w1]; [reflexivity|].
  change (buildCommandOpts (withRemove E remove)) with (buildCommandOpts E).
  destruct (buildCommandOpts E p (dp_Path p) w1) as [[[opts|err] e2] w2];
    [|reflexivity].
  destruct (emit (EvSpinnerNew "Running terragrunt run-all plan") w2)
    as [[[] e3] w3].
  change (runPlan (withRemove E remove)) with (runPlan E).
  destruct (runPlan E p opts true w3) as [[[[planFile planJSON] perr] e4] w4].
  destruct perr as [err|]; [reflexivity|].
  destruct (Nat.ltb 0 (length planJSON)); [reflexivity|].
  destruct (emit (EvSpinnerNew (showSpinnerMsg configDirs)) w4)
    as [[[] e5] w5].
  rewrite planLoop_withRemove. reflexivity.
Qed.

(** C7.  Once the aggregate plan command has been called -- whatever it
    answered, an error too -- the run of [generatePlanJSONs] goes on to call
    [cleanupPlanFiles] on all the working directories with the plan file
    name the command answered, before it leaves: the trace is what came
    before (with the plan call in it), then the trace of that cleanup, then
    a warning if the cleanup failed, then at most the removal of the root
    config file.  The value returned is that of the body: nothing a removal
    answers changes it. *)
Theorem plan_cleanup_runs_and_only_warns p configDirs workingDirs w
    planFile planJSON perr :
  let r := generatePlanJSONs E p configDirs workingDirs w in
  planCalls (events r) = [(planFile, planJSON, perr)] ->
  (exists before w1 after,
      events r =
        before
          ++ events (cleanupPlanFiles E workingDirs planFile w1)
          ++ cleanupWarning
               (value (cleanupPlanFiles E workingDirs planFile w1))
          ++ after /\
      planCalls before = [(planFile, planJSON, perr)] /\
      warnings before = [] /\
      warnings after = [] /\
      forallb isCleanupEvent after = true) /\
  value r = fst (value (generatePlanJSONs_body E p configDirs workingDirs w)) /\
  (forall remove,
      value (generatePlanJSONs (withRemove E remove) p configDirs workingDirs w)
      = value r).
Proof.
  intros r Hplan. subst r.
  destruct (generatePlanJSONs_run World Metadata Resources Usage E
              p configDirs workingDirs w) as [Hval Hev].
  split; [|split; [exact Hval|]].
  - rewrite Hev in Hplan |- *.
    set (b := generatePlanJSONs_body E p configDirs workingDirs w) in *.
    pose proof (unwind_events_cleanup World Metadata Resources Usage E
                  (snd (value b)) (final b)) as Hun.
    apply cleanup_events_silent in Hun as (_ & _ & Hpl & _).
    rewrite planCalls_app, Hpl, app_nil_r in Hplan.
    destruct (generatePlanJSONs_body_script World Metadata Resources Usage E
                p configDirs workingDirs w)
      as [(Hnone & _)
         |(opts & pf & pj & pe & after & extra & root & Hb & Hds & Hex & Hroot
           & Hpa & Hwa & _)]; fold b in Hnone || fold b in Hb, Hds.
    { rewrite Hnone in Hplan. discriminate Hplan. }
    rewrite Hb in Hplan. cbn [app planCalls] in Hplan. rewrite Hpa in Hplan.
    injection Hplan as -> -> ->.
    rewrite Hds, unwind_app. cbn [events fst snd unwind].
    rewrite events_bind, runDeferred_cleanup_run. cbn [events final fst snd].
    exists (events b ++ events (unwind E extra (final b))),
           (final (unwind E extra (final b))),
           (events
              (unwind E root
                 (snd (cleanupPlanFiles E workingDirs planFile
                         (final (unwind E extra (final b))))))).
    repeat split.
    + unfold events, final. rewrite <- !app_assoc. reflexivity.
    + rewrite planCalls_app.
      pose proof (unwind_events_cleanup World Metadata Resources Usage E
                    extra (final b)) as Hun.
      apply cleanup_events_silent in Hun as (_ & _ & -> & _).
      rewrite Hb. cbn [app planCalls]. rewrite Hpa. reflexivity.
    + rewrite warnings_app, Hb.
      rewrite (unwind_removes_no_warning World Metadata Resources Usage E
                 extra (final b) Hex).
      cbn [app warnings]. rewrite Hwa. reflexivity.
    + apply unwind_removes_no_warning, Hroot.
    + apply unwind_events_cleanup.
  - intros remove.
    destruct (generatePlanJSONs_run World Metadata Resources Usage
                (withRemove E remove) p configDirs workingDirs w) as [-> _].
    rewrite generatePlanJSONs_body_withRemove, Hval. reflexivity.
Qed.

End PlanCleanup.

(** ** Runs of the scripted environment *)

(** One record in the stream: it is kept, decoded and returned. *)
Lemma discovery_single_document_run :
  splitJSONs (infoStream [infoA]) = [infoStream [infoA]] /\
  value (getProjectDirs (scripted (tree [infoA] perDirectoryPlan))
           (theProvider false) 0)
  = (["/repo/a"], ["/repo/a/.cache"], None).
Proof.
  apply (proj2 (discovery_trims_last_only_of_several nat string bytes unit
                  (scripted (tree [infoA] perDirectoryPlan)))
               (theProvider false) 0 1
               (infoStream [infoA]) (infoStream [infoA]) infoA).
  - reflexivity.
  - right.
    exists (removelast (removelast (infoStream [infoA]))), [].
    vm_compute. repeat split.
  - reflexivity.
Defined.

(** A good record and then a broken piece: the good one is returned, with
    the error. *)
Lemma discovery_broken_piece_run :
  value (getProjectDirs
           (scripted (withStdout (tree [infoA] perDirectoryPlan) brokenStream))
           (theProvider false) 0)
  = (["/repo/a"], ["/repo/a/.cache"], Some "invalid character in JSON input").
Proof.
  apply (discovery_decode_error_keeps_earlier nat string bytes unit
           (scripted (withStdout (tree [infoA] perDirectoryPlan) brokenStream))
           (theProvider false) 0 1 brokenStream
           [infoStream [infoA]] brokenPiece [] [infoA]
           "invalid character in JSON input");
    vm_compute; reflexivity.
Defined.

(** No directories: terragrunt prints nothing, and discovery fails. *)
Lemma discovery_empty_output_run :
  splitJSONs [] = [[]] /\
  value (getProjectDirs (scripted (tree [] perDirectoryPlan))
           (theProvider false) 0)
  = ([], [], Some "unexpected end of JSON input").
Proof.
  apply (discovery_of_empty_output_fails nat string bytes unit
           (scripted (tree [] perDirectoryPlan)) (theProvider false) 0 1
           "unexpected end of JSON input");
    reflexivity.
Defined.

(** Three directories, the removal fails in the second: the first is
    removed, the third is not attempted. *)
Lemma cleanup_stops_at_second_run :
  let r := cleanupPlanFiles
             (scripted (withBadRemove (tree [] perDirectoryPlan)
                          ["b/plan.out"]))
             ["a"; "b"; "c"] "plan.out" 0 in
  events r = map (fun c => EvRemove (fst c) (snd c)) (removeCalls (events r)) /\
  match value r with
  | None =>
      removeCalls (events r) =
      map (fun d => (scriptedJoin d "plan.out", None)) ["a"; "b"; "c"]
  | Some err =>
      exists done d rest,
        ["a"; "b"; "c"] = done ++ d :: rest /\
        removeCalls (events r) =
        map (fun d => (scriptedJoin d "plan.out", None)) done
          ++ [(scriptedJoin d "plan.out", Some err)]
  end.
Proof.
  apply (proj2 (cleanupPlanFiles_removes_until_first_failure
                  nat string bytes unit
                  (scripted (withBadRemove (tree [] perDirectoryPlan)
                               ["b/plan.out"]))
                  ["a"; "b"; "c"] "plan.out" 0)).
  discriminate.
Defined.

(** The options of the second directory cannot be built: no outputs. *)
Lemma option_build_failure_run :
  value (generateStateJSONs
           (scripted (withBadOpts (tree [infoA; infoB] perDirectoryPlan)
                        ["/repo/b"]))
           (theProvider true) dirsAB 0)
  = ([], Some "cannot build options for /repo/b") /\
  value (generatePlanJSONs
           (scripted (withBadOpts (tree [infoA; infoB] perDirectoryPlan)
                        ["/repo/b"]))
           (tp_DirProvider (theProvider false)) dirsAB workAB 0)
  = Returned ([], Some "cannot build options for /repo/b").
Proof.
  split.
  - apply (proj1 (option_build_failure_returns_no_outputs
                    nat string bytes unit
                    (scripted (withBadOpts (tree [infoA; infoB] perDirectoryPlan)
                                 ["/repo/b"])))
                 (theProvider true) dirsAB 0).
    reflexivity.
  - apply (proj2 (option_build_failure_returns_no_outputs
                    nat string bytes unit
                    (scripted (withBadOpts (tree [infoA; infoB] perDirectoryPlan)
                                 ["/repo/b"])))
                 (tp_DirProvider (theProvider false)) dirsAB workAB 0).
    reflexivity.
Defined.

(** Three directories from persisted state: three outputs, in order. *)
Lemma state_three_directories_run :
  let r := generateStateJSONs (scripted (tree [infoA; infoB; infoC]
                                           perDirectoryPlan))
             (theProvider true) dirsABC 0 in
  map fst (buildCalls (events r)) = dirsABC /\
  map snd (showCalls (events r)) =
    map inl [shown "/repo/a" EmptyString; shown "/repo/b" EmptyString;
             shown "/repo/c" EmptyString] /\
  length [shown "/repo/a" EmptyString; shown "/repo/b" EmptyString;
          shown "/repo/c" EmptyString] = length dirsABC.
Proof.
  apply (proj1 (proj2 (proj2 (proj2
           (state_outputs_in_directory_order nat string bytes unit
              (scripted (tree [infoA; infoB; infoC] perDirectoryPlan))
              (theProvider true) dirsABC 0))))).
  reflexivity.
Defined.

(** Three directories, the plan file of the second cannot be removed: the
    cleanup runs, the failure is logged, the three outputs are returned. *)
Lemma plan_cleanup_failure_run :
  let E := scripted (withBadRemove (tree [infoA; infoB; infoC] perDirectoryPlan)
                       ["/repo/b/.cache/.tfplan"]) in
  let r := generatePlanJSONs E (tp_DirProvider (theProvider false))
             dirsABC workABC 0 in
  (exists before w1 after,
      events r =
        before
          ++ events (cleanupPlanFiles E workABC ".tfplan" w1)
          ++ cleanupWarning (value (cleanupPlanFiles E workABC ".tfplan" w1))
          ++ after /\
      planCalls before = [perDirectoryPlan] /\
      warnings before = [] /\
      warnings after = [] /\
      forallb isCleanupEvent after = true) /\
  value r = fst (value (generatePlanJSONs_body E
                          (tp_DirProvider (theProvider false))
                          dirsABC workABC 0)) /\
  (forall remove,
      value (generatePlanJSONs (withRemove E remove)
               (tp_DirProvider (theProvider false)) dirsABC workABC 0)
      = value r).
Proof.
  apply (plan_cleanup_runs_and_only_warns nat string bytes unit
           (scripted (withBadRemove (tree [infoA; infoB; infoC] perDirectoryPlan)
                        ["/repo/b/.cache/.tfplan"]))
           (tp_DirProvider (theProvider false)) dirsABC workABC 0
           ".tfplan" [] None).
  reflexivity.
Defined.

(** ** Departures from the specification *)

(** C3.  Two directories and a plan command that prints one plan for the
    whole tree: discovery and [generatePlanJSONs] both succeed, with two
    configuration directories, two working directories and one output, and
    [LoadResources], which reads [outs[i]] for every configuration
    directory, panics on the second. *)
Theorem unified_plan_breaks_length_invariant :
  let E := scripted (tree [infoA; infoB] unifiedPlan) in
  let d := getProjectDirs E (theProvider false) 0 in
  let g := generatePlanJSONs E (tp_DirProvider (theProvider false))
             dirsAB workAB (final d) in
  value d = (dirsAB, workAB, None) /\
  value g = Returned ([list_byte_of_string "{}"], None) /\
  length [list_byte_of_string "{}"] <> length dirsAB /\
  value (LoadResources E (theProvider false) tt 0) = Panicked.
Proof.
  vm_compute. repeat split. discriminate.
Qed.

(** C4 as stated fails: with a plan file per directory, the first directory
    is shown and has its output, the options of the second cannot be built,
    and the call returns no output at all. *)
Lemma option_build_failure_drops_collected :
  let r := generatePlanJSONs
             (scripted (withBadOpts (tree [infoA; infoB] perDirectoryPlan)
                          ["/repo/b"]))
             (tp_DirProvider (theProvider false)) dirsAB workAB 0 in
  showCalls (events r) =
    [(optsOf "/repo/a", "/repo/a/.cache/.tfplan",
      inl (shown "/repo/a" "/repo/a/.cache/.tfplan"))] /\
  buildFailure (events r) = Some "cannot build options for /repo/b" /\
  value r = Returned ([], Some "cannot build options for /repo/b") /\
  value r <> Returned ([shown "/repo/a" "/repo/a/.cache/.tfplan"],
                       Some "cannot build options for /repo/b").
Proof.
  vm_compute. repeat split. discriminate.
Qed.

(** C5 as stated fails: from persisted state, the first two directories are
    shown, the options of the third cannot be built, and the call returns
    no output instead of the two collected. *)
Lemma state_failure_at_third_returns_none :
  let r := generateStateJSONs
             (scripted (withBadOpts (tree [infoA; infoB; infoC]
                                       perDirectoryPlan) ["/repo/c"]))
             (theProvider true) dirsABC 0 in
  map snd (showCalls (events r)) =
    [inl (shown "/repo/a" EmptyString); inl (shown "/repo/b" EmptyString)] /\
  snd (value r) = Some "cannot build options for /repo/c" /\
  length (fst (value r)) = 0 /\
  length (fst (value r)) <> 3 - 1.
Proof.
  vm_compute. repeat split. discriminate.
Qed.

(** * Further properties of the code *)

(** ** Streams of several documents *)

Lemma genSplit_documents sep tail :
  sep <> [] ->
  Index tail sep = None ->
  forall docs fuel,
    Forall (fun doc => exists body,
                doc = body ++ sep /\ Index doc sep = Some (length body)) docs ->
    length (concat docs ++ tail) <= fuel ->
    genSplit fuel (concat docs ++ tail) sep = docs ++ [tail].
Proof.
  intros Hsep Htail. induction docs as [|doc docs IH]; intros fuel Hdocs Hlen.
  - simpl. destruct fuel; simpl; [reflexivity|]. rewrite Htail. reflexivity.
  - inversion Hdocs as [|d ds (body & Hdoc & Hidx) Hrest]; subst d ds.
    assert (0 < length sep) by (destruct sep; [congruence | simpl; lia]).
    assert (Hdl : length doc = length body + length sep)
      by (rewrite Hdoc; apply length_app).
    cbn [concat] in *. rewrite <- app_assoc in *.
    rewrite length_app in Hlen.
    destruct fuel as [|fuel]; [lia|].
    cbn [genSplit]. rewrite (Index_app _ _ _ _ Hidx).
    rewrite <- Hdl.
    rewrite firstn_app, Nat.sub_diag, firstn_all, firstn_O, app_nil_r.
    rewrite skipn_app, Nat.sub_diag, skipn_all, skipn_O. cbn [app].
    f_equal. apply IH; [exact Hrest | lia].
Qed.

Section DiscoveryStreams.
Variables World Metadata Resources Usage : Type.
Variable E : Env World Metadata Resources Usage.

Lemma splitJSONs_documents docs tail :
  docs <> [] ->
  Forall terminated docs ->
  Index tail braceNewline = None ->
  splitJSONs (concat docs ++ tail) = docs.
Proof.
  intros Hne Hdocs Htail.
  assert (Hs : SplitAfter (concat docs ++ tail) braceNewline = docs ++ [tail]).
  { apply genSplit_documents; [discriminate | exact Htail | exact Hdocs | lia]. }
  rewrite splitJSONs_large; rewrite Hs.
  - apply removelast_last.
  - rewrite length_app. simpl. destruct docs; [congruence | simpl; lia].
Qed.

Lemma splitJSONs_not_nil out : splitJSONs out <> [].
Proof.
  unfold splitJSONs.
  pose proof (genSplit_not_nil (length out) out braceNewline) as Hne.
  fold (SplitAfter out braceNewline) in Hne.
  destruct (SplitAfter out braceNewline) as [|a [|b l]]; [congruence|..];
    simpl; discriminate.
Qed.

(** A successful run of the decoding loop decoded every piece. *)
Lemma decodeDirs_success jsons configDirs workingDirs w cs ws :
  value (decodeDirs E jsons configDirs workingDirs w) = (cs, ws, None) ->
  exists infos,
    map (json_Unmarshal E) jsons = map inl infos /\
    cs = configDirs
           ++ map (fun info => filepath_Dir E (ConfigPath info)) infos /\
    ws = workingDirs ++ map WorkingDir infos.
Proof.
  revert configDirs workingDirs.
  induction jsons as [|j jsons IH]; intros configDirs workingDirs; simpl.
  - intros [= <- <-]. exists []. simpl. rewrite !app_nil_r. repeat split.
  - destruct (json_Unmarshal E j) as [info|err] eqn:Hj; simpl.
    + intros H. apply IH in H as (infos & Hm & -> & ->).
      exists (info :: infos). simpl. rewrite Hm, <- !app_assoc.
      repeat split.
    + discriminate.
Qed.

(** X1.  A stream of one or more documents that each end with the
    separator, followed by a rest that holds no separator, is read as these
    documents: when they all decode, discovery succeeds and returns their
    directories, one per document and in the order of the stream.  The rest
    is dropped unread -- also when it is a last document that only lacks
    its line break. *)
Theorem discovery_reads_terminated_documents p w w1 docs tail infos :
  env_Cmd E (discoveryOpts p) discoveryArgs w = (inl (concat docs ++ tail), w1) ->
  docs <> [] ->
  Forall terminated docs ->
  Index tail braceNewline = None ->
  map (json_Unmarshal E) docs = map inl infos ->
  value (getProjectDirs E p w) =
    (map (fun info => filepath_Dir E (ConfigPath info)) infos,
     map WorkingDir infos,
     None) /\
  length infos = length docs.
Proof.
  intros Hcmd Hne Hdocs Htail Hdec. split.
  - rewrite (getProjectDirs_printed _ _ _ _ E _ _ _ _ Hcmd).
    rewrite (splitJSONs_documents docs tail Hne Hdocs Htail).
    rewrite <- (app_nil_r docs).
    rewrite (decodeDirs_decoded _ _ _ _ E _ _ _ _ _ _ Hdec). reflexivity.
  - apply (f_equal (@length _)) in Hdec. rewrite !length_map in Hdec.
    symmetry. exact Hdec.
Qed.

(** X2.  Discovery never succeeds with nothing: when it returns no error,
    the command ran without error, every piece left after the trimming was
    decoded, there is one directory per piece, and there is at least one. *)
Theorem discovery_success_has_a_directory p w configDirs workingDirs :
  value (getProjectDirs E p w) = (configDirs, workingDirs, None) ->
  exists out infos,
    fst (env_Cmd E (discoveryOpts p) discoveryArgs w) = inl out /\
    map (json_Unmarshal E) (splitJSONs out) = map inl infos /\
    configDirs = map (fun info => filepath_Dir E (ConfigPath info)) infos /\
    workingDirs = map WorkingDir infos /\
    length configDirs = length (splitJSONs out) /\
    configDirs <> [].
Proof.
  intros H.
  destruct (env_Cmd E (discoveryOpts p) discoveryArgs w) as [[out|err] w1]
    eqn:Hcmd.
  - rewrite (getProjectDirs_printed _ _ _ _ E _ _ _ _ Hcmd) in H.
    apply decodeDirs_success in H as (infos & Hm & -> & ->).
    exists out, infos. simpl.
    assert (Hlen : length infos = length (splitJSONs out)).
    { apply (f_equal (@length _)) in Hm. rewrite !length_map in Hm.
      symmetry. exact Hm. }
    repeat split; try assumption.
    + rewrite length_map. exact Hlen.
    + pose proof (splitJSONs_not_nil out) as Hne.
      destruct infos; [|discriminate].
      destruct (splitJSONs out); [congruence | discriminate Hlen].
  - exfalso. revert H.
    unfold getProjectDirs, bind, emit, Cmd, call. rewrite Hcmd. discriminate.
Qed.

End DiscoveryStreams.

(** ** What the generators call, and when *)

Lemma removeCalls_script steps stop :
  removeCalls (flat_map stepEvents steps ++ stopEvents stop) = [].
Proof.
  induction steps as [|s steps IH]; simpl; [destruct stop; reflexivity|].
  exact IH.
Qed.

Lemma cleanup_events_no_work evs :
  forallb isCleanupEvent evs = true ->
  forallb (fun e => negb (isWorkEvent e)) evs = true.
Proof.
  induction evs as [|e evs IH]; simpl; [reflexivity|].
  intros H. apply andb_true_iff in H as [He H].
  rewrite (IH H). destruct e; try discriminate He; reflexivity.
Qed.

Lemma showCalls_length_script steps stop rest paths :
  paths = map st_path steps ++ stopPath stop ++ rest ->
  length (showCalls (flat_map stepEvents steps ++ stopEvents stop))
    <= length paths.
Proof.
  intros ->. rewrite showCalls_script, !length_app, !length_map.
  destruct stop; simpl; lia.
Qed.

Section GeneratorFacts.
Variables World Metadata Resources Usage : Type.
Variable E : Env World Metadata Resources Usage.

Local Abbreviation call_run := (call_run World).

(** The body of [generateStateJSONs], with its trace. *)
Lemma generateStateJSONs_body_script p configDirs w :
  let b := generateStateJSONs_body E p configDirs w in
  (exists err, events b = [EvChecks (Some err)] /\
               value b = ([], Some err, [])) \/
  (exists steps stop rest,
      events b = EvChecks None :: EvSpinnerNew (showSpinnerMsg configDirs)
                   :: flat_map stepEvents steps ++ stopEvents stop /\
      configDirs = map st_path steps ++ stopPath stop ++ rest).
Proof.
  intros b. subst b. unfold generateStateJSONs_body, checks.
  rewrite bind_run, call_run.
  unfold value, events, final; cbn [fst snd].
  destruct (env_checks E (tp_DirProvider p) w) as [[err|] w1]; cbn [fst snd].
  - left. exists err. split; reflexivity.
  - right. rewrite bind_run. unfold value, events, final, emit; cbn [fst snd].
    destruct (stateLoop_script World Metadata Resources Usage E
                (tp_DirProvider p) configDirs [] [] w1)
      as (steps & stop & rest & extra & Hp & _ & Hev & _).
    unfold events in Hev. exists steps, stop, rest.
    split; [|exact Hp]. cbn [app]. rewrite Hev. reflexivity.
Qed.

(** The deferred calls the persisted-state loop leaves: the removal of the
    config files its option builds wrote, the last one first. *)
Lemma stateLoop_defers p paths outs ds w :
  snd (value (stateLoop E p paths outs ds w)) =
  map DeferRemove
      (rev (configFiles (buildCalls (events (stateLoop E p paths outs ds w)))))
    ++ ds.
Proof.
  revert outs ds w. induction paths as [|path paths IH]; intros outs ds w;
    [reflexivity|].
  cbn [stateLoop]. unfold buildCommandOpts, runShow.
  rewrite bind_run, call_run. unfold value, events, final in *; cbn [fst snd].
  destruct (env_buildCommandOpts E p path w) as [[opts|err] w1];
    cbn [fst snd]; [|reflexivity].
  rewrite bind_run, call_run. unfold value, events, final in *; cbn [fst snd].
  destruct (env_runShow E p opts EmptyString w1) as [[out|err] w2];
    cbn [fst snd app buildCalls configFiles].
  - rewrite IH. unfold deferConfigFile.
    destruct (String.eqb (TerraformConfigFile opts) EmptyString);
      [reflexivity|].
    cbn [rev]. rewrite map_app, <- app_assoc. reflexivity.
  - unfold deferConfigFile.
    destruct (String.eqb (TerraformConfigFile opts) EmptyString); reflexivity.
Qed.

(** The same for the fresh-plan loop. *)
Lemma planLoop_defers p workingDirs planFile i paths outs ds w :
  snd (value (planLoop E p workingDirs planFile i paths outs ds w)) =
  map DeferRemove
      (rev (configFiles
              (buildCalls
                 (events
                    (planLoop E p workingDirs planFile i paths outs ds w)))))
    ++ ds.
Proof.
  revert i outs ds w. induction paths as [|path paths IH]; intros i outs ds w;
    [reflexivity|].
  cbn [planLoop]. unfold buildCommandOpts, runShow.
  rewrite bind_run, call_run. unfold value, events, final in *; cbn [fst snd].
  destruct (env_buildCommandOpts E p path w) as [[opts|err] w1];
    cbn [fst snd]; [|reflexivity].
  destruct (nth_error workingDirs i) as [wd|].
  - rewrite bind_run, call_run.
    unfold value, events, final in *; cbn [fst snd].
    destruct (env_runShow E p opts (filepath_Join E wd planFile) w1)
      as [[out|err] w2]; cbn [fst snd app buildCalls configFiles].
    + rewrite IH. unfold deferConfigFile.
      destruct (String.eqb (TerraformConfigFile opts) EmptyString);
        [reflexivity|].
      cbn [rev]. rewrite map_app, <- app_assoc. reflexivity.
    + unfold deferConfigFile.
      destruct (String.eqb (TerraformConfigFile opts) EmptyString); reflexivity.
  - cbn [ret fst snd app buildCalls configFiles]. unfold deferConfigFile.
    destruct (String.eqb (TerraformConfigFile opts) EmptyString); reflexivity.
Qed.

(** Unwinding a stack of file removals removes these files, in order. *)
Lemma unwind_removals names w :
  map fst (removeCalls (events (unwind E (map DeferRemove names) w))) = names.
Proof.
  revert w. induction names as [|name names IH]; intros w; [reflexivity|].
  cbn [map unwind runDeferred]. rewrite !bind_run, os_Remove_run.
  cbn [value events final fst snd app removeCalls map].
  f_equal. apply IH.
Qed.

Lemma generateStateJSONs_body_defers p configDirs w :
  snd (value (generateStateJSONs_body E p configDirs w)) =
  map DeferRemove
      (rev (configFiles
              (buildCalls (events (generateStateJSONs_body E p configDirs w))))).
Proof.
  unfold generateStateJSONs_body, checks.
  rewrite bind_run, call_run.
  unfold value, events, final; cbn [fst snd].
  destruct (env_checks E (tp_DirProvider p) w) as [[err|] w1]; cbn [fst snd];
    [reflexivity|].
  rewrite bind_run. unfold value, events, final, emit; cbn [fst snd].
  cbn [app buildCalls].
  pose proof (stateLoop_defers (tp_DirProvider p) configDirs [] [] w1) as H.
  unfold value, events in H. rewrite H, app_nil_r. reflexivity.
Qed.

(** X3.  [generateStateJSONs] removes, when it leaves and on every path,
    exactly the config files that its option builds wrote -- each once, the
    last written first -- and no other file. *)
Theorem state_removes_its_config_files p configDirs w :
  map fst (removeCalls (events (generateStateJSONs E p configDirs w))) =
  rev (configFiles (buildCalls (events (generateStateJSONs E p configDirs w)))).
Proof.
  unfold generateStateJSONs.
  rewrite (withDefers_run World Metadata Resources Usage E).
  cbn [events fst snd].
  rewrite removeCalls_app, buildCalls_app.
  pose proof (unwind_events_cleanup World Metadata Resources Usage E
                (snd (value (generateStateJSONs_body E p configDirs w)))
                (final (generateStateJSONs_body E p configDirs w))) as Hun.
  apply cleanup_events_silent in Hun as (_ & Hb & _).
  rewrite Hb, app_nil_r, map_app.
  rewrite generateStateJSONs_body_defers, unwind_removals.
  destruct (generateStateJSONs_body_script p configDirs w)
    as [(err & Hev & _)|(steps & stop & rest & Hev & _)]; rewrite Hev.
  - reflexivity.
  - cbn [removeCalls]. rewrite removeCalls_script. reflexivity.
Qed.

(** X4.  [generateStateJSONs] never runs the plan command and never logs a
    warning; it makes at most one show call per configuration directory;
    and it removes files only after its last call to terragrunt. *)
Theorem state_never_plans_and_removes_last p configDirs w :
  let r := generateStateJSONs E p configDirs w in
  planCalls (events r) = [] /\
  warnings (events r) = [] /\
  length (showCalls (events r)) <= length configDirs /\
  exists work after,
    events r = work ++ after /\
    removeCalls work = [] /\
    forallb (fun e => negb (isWorkEvent e)) after = true.
Proof.
  intros r. subst r. unfold generateStateJSONs.
  rewrite (withDefers_run World Metadata Resources Usage E).
  cbn [events fst snd].
  pose proof (unwind_events_cleanup World Metadata Resources Usage E
                (snd (value (generateStateJSONs_body E p configDirs w)))
                (final (generateStateJSONs_body E p configDirs w))) as Hun.
  pose proof (cleanup_events_no_work _ Hun) as Hnw.
  pose proof (cleanup_events_silent _ Hun) as (Hs & _ & Hp & _).
  assert (Hw : warnings
                 (events
                    (unwind E
                       (snd (value (generateStateJSONs_body E p configDirs w)))
                       (final (generateStateJSONs_body E p configDirs w))))
               = []).
  { rewrite generateStateJSONs_body_defers.
    apply unwind_removes_no_warning.
    induction (rev (configFiles
                      (buildCalls
                         (events (generateStateJSONs_body E p configDirs w)))));
      [reflexivity | assumption]. }
  rewrite planCalls_app, warnings_app, showCalls_app, Hs, Hp, Hw, !app_nil_r.
  destruct (generateStateJSONs_body_script p configDirs w)
    as [(err & Hev & _)|(steps & stop & rest & Hev & Hpaths)]; rewrite Hev.
  - split; [reflexivity|]. split; [reflexivity|]. split; [simpl; lia|].
    eexists _, _. split; [reflexivity|]. split; [reflexivity | exact Hnw].
  - cbn [planCalls warnings showCalls removeCalls].
    rewrite planCalls_script, warnings_script.
    repeat split.
    + apply (showCalls_length_script steps stop rest), Hpaths.
    + eexists _, _. split; [reflexivity|]. split; [|exact Hnw].
      cbn [removeCalls]. apply removeCalls_script.
Qed.

Lemma planLoop_panic p workingDirs planFile i paths outs ds w :
  fst (value (planLoop E p workingDirs planFile i paths outs ds w)) = Panicked ->
  length workingDirs < i + length paths.
Proof.
  revert i outs ds w. induction paths as [|path paths IH]; intros i outs ds w;
    [discriminate|].
  cbn [planLoop]. unfold buildCommandOpts, runShow.
  rewrite bind_run, call_run. unfold value, events, final in *; cbn [fst snd].
  destruct (env_buildCommandOpts E p path w) as [[opts|err] w1];
    cbn [fst snd]; [|discriminate].
  destruct (nth_error workingDirs i) as [wd|] eqn:Hwd.
  - rewrite bind_run, call_run.
    unfold value, events, final in *; cbn [fst snd].
    destruct (env_runShow E p opts (filepath_Join E wd planFile) w1)
      as [[out|err] w2]; cbn [fst snd]; [|discriminate].
    intros H. apply IH in H. cbn [length]. lia.
  - intros _. apply nth_error_None in Hwd. cbn [length]. lia.
Qed.

(** The deferred calls the body of [generatePlanJSONs] leaves. *)
Lemma generatePlanJSONs_body_defers p configDirs workingDirs w :
  let b := generatePlanJSONs_body E p configDirs workingDirs w in
  (planCalls (events b) = [] /\ removeCalls (events b) = [] /\
   warnings (events b) = [] /\ snd (value b) = [] /\
   fst (value b) <> Panicked /\
   (buildCalls (events b) = [] \/
    exists err, buildCalls (events b) = [(dp_Path p, inr err)])) \/
  (exists opts planFile planJSON perr loopEvents,
      events b =
        [EvChecks None; EvBuildOpts (dp_Path p) (inl opts);
         EvSpinnerNew "Running terragrunt run-all plan";
         EvPlan opts true (planFile, planJSON, perr)] ++ loopEvents /\
      planCalls loopEvents = [] /\ removeCalls loopEvents = [] /\
      warnings loopEvents = [] /\
      (fst (value b) = Panicked ->
       length workingDirs < length configDirs /\
       planJSON = [] /\ perr = None) /\
      snd (value b) =
        map DeferRemove (rev (configFiles (buildCalls loopEvents)))
          ++ DeferCleanup workingDirs planFile
          :: map DeferRemove (configFiles [(dp_Path p, inl opts)])).
Proof.
  intros b. subst b.
  unfold generatePlanJSONs_body, bind, checks, buildCommandOpts, runPlan,
    call, emit, ret, value, events, final.
  destruct (env_checks E p w) as [[err|] w1]; cbn [fst snd app].
  { left. repeat split; try discriminate. left. reflexivity. }
  destruct (env_buildCommandOpts E p (dp_Path p) w1) as [[opts|err] w2];
    cbn [fst snd app].
  2:{ left. repeat split; try discriminate. right. exists err. reflexivity. }
  destruct (env_runPlan E p opts true w2) as [[[planFile planJSON] perr] w3].
  right.
  assert (Hroot : deferConfigFile opts [] =
                  map DeferRemove (configFiles [(dp_Path p, inl opts)])).
  { unfold deferConfigFile. cbn [configFiles].
    destruct (String.eqb (TerraformConfigFile opts) EmptyString); reflexivity. }
  rewrite Hroot.
  destruct perr as [err|].
  { exists opts, planFile, planJSON, (Some err), [].
    cbn [fst snd app]. repeat split; discriminate. }
  destruct (Nat.ltb_spec 0 (length planJSON)) as [Hlen|Hlen].
  { exists opts, planFile, planJSON, None, [].
    cbn [fst snd app]. repeat split; discriminate. }
  pose proof (planLoop_defers p workingDirs planFile 0 configDirs []
                (DeferCleanup workingDirs planFile
                   :: map DeferRemove (configFiles [(dp_Path p, inl opts)]))
                w3) as Hds.
  pose proof (planLoop_panic p workingDirs planFile 0 configDirs []
                (DeferCleanup workingDirs planFile
                   :: map DeferRemove (configFiles [(dp_Path p, inl opts)]))
                w3) as Hpanic.
  destruct (planLoop_script World Metadata Resources Usage E p workingDirs
              planFile 0 configDirs []
              (DeferCleanup workingDirs planFile
                 :: map DeferRemove (configFiles [(dp_Path p, inl opts)])) w3)
    as (steps & stop & rest & extra & _ & _ & Hev & _).
  unfold value, events in Hds, Hpanic, Hev.
  destruct (planLoop E p workingDirs planFile 0 configDirs []
              (DeferCleanup workingDirs planFile
                 :: map DeferRemove (configFiles [(dp_Path p, inl opts)])) w3)
    as [[[v ds] evs] w4].
  cbn [fst snd] in *. subst evs.
  exists opts, planFile, planJSON, None,
    (EvSpinnerNew (showSpinnerMsg configDirs)
       :: flat_map stepEvents steps ++ stopEvents stop).
  repeat split.
  - cbn [planCalls]. apply planCalls_script.
  - cbn [removeCalls]. apply removeCalls_script.
  - cbn [warnings]. apply warnings_script.
  - apply Hpanic in H. simpl in H. exact H.
  - destruct planJSON; [reflexivity | simpl in Hlen; lia].
  - cbn [buildCalls]. exact Hds.
Qed.

(** The files a cleanup tried to remove are those of the first
    directories. *)
Lemma cleanupPlanFiles_removed_prefix paths planFile w :
  exists k,
    map fst (removeCalls (events (cleanupPlanFiles E paths planFile w))) =
    map (fun d => filepath_Join E d planFile) (firstn k paths).
Proof.
  unfold cleanupPlanFiles.
  destruct (String.eqb planFile EmptyString); [exists 0; reflexivity|].
  destruct (removeEach_trace World Metadata Resources Usage E paths planFile w)
    as [_ H].
  destruct (value (removeEach E paths planFile w)) as [err|].
  - destruct H as (done & d & rest & -> & ->).
    exists (length done + 1).
    rewrite firstn_app, firstn_all2 by lia.
    replace (length done + 1 - length done) with 1 by lia.
    cbn [firstn]. rewrite !map_app, !map_map. reflexivity.
  - exists (length paths). rewrite H, firstn_all, map_map. reflexivity.
Qed.

Lemma unwind_plan_stack_removals loopFiles workingDirs planFile rootFiles w :
  exists w1,
    map fst
        (removeCalls
           (events
              (unwind E
                 (map DeferRemove loopFiles
                    ++ DeferCleanup workingDirs planFile
                    :: map DeferRemove rootFiles) w))) =
    loopFiles
      ++ map fst
           (removeCalls (events (cleanupPlanFiles E workingDirs planFile w1)))
      ++ rootFiles.
Proof.
  exists (final (unwind E (map DeferRemove loopFiles) w)).
  rewrite (unwind_app World Metadata Resources Usage E).
  cbn [events fst snd unwind].
  rewrite events_bind,
    (runDeferred_cleanup_run World Metadata Resources Usage E).
  cbn [events final fst snd].
  assert (Hw : forall r, removeCalls (cleanupWarning r) = [])
    by (intros [err|]; reflexivity).
  rewrite !removeCalls_app, Hw, app_nil_r, !map_app, !unwind_removals.
  reflexivity.
Qed.

(** X5.  What [generatePlanJSONs] removes when it leaves, and in which
    order: first the config files written for the directories, the last
    written first; then the plan files, of the first working directories in
    order (all of them unless a removal fails or the plan file name is
    empty), and none when the plan command was not reached; last the config
    file written for the root path. *)
Theorem plan_removes_in_order p configDirs workingDirs w :
  let r := generatePlanJSONs E p configDirs workingDirs w in
  let builds := buildCalls (events r) in
  exists cleaned,
    map fst (removeCalls (events r)) =
      rev (configFiles (tl builds)) ++ cleaned
        ++ configFiles (firstn 1 builds) /\
    match planCalls (events r) with
    | [] => cleaned = []
    | (planFile, _, _) :: _ =>
        exists k,
          cleaned = map (fun wd => filepath_Join E wd planFile)
                        (firstn k workingDirs)
    end.
Proof.
  intros r builds. subst r builds.
  destruct (generatePlanJSONs_run World Metadata Resources Usage E
              p configDirs workingDirs w) as [_ ->].
  pose proof (unwind_events_cleanup World Metadata Resources Usage E
    (snd (value (generatePlanJSONs_body E p configDirs workingDirs w)))
    (final (generatePlanJSONs_body E p configDirs workingDirs w))) as Hun.
  apply cleanup_events_silent in Hun as (_ & Hbu & Hpu & _).
  rewrite buildCalls_app, planCalls_app, removeCalls_app, Hbu, Hpu,
    !app_nil_r, map_app.
  destruct (generatePlanJSONs_body_defers p configDirs workingDirs w)
    as [(Hp & Hr & _ & Hds & _ & Hb)
       |(opts & pf & pj & perr & loopEvs & Hev & Hpl & Hrl & _ & _ & Hds)].
  - rewrite Hp, Hr, Hds. exists []. split; [|reflexivity].
    destruct Hb as [->|(err & ->)]; reflexivity.
  - rewrite Hds, Hev.
    destruct (unwind_plan_stack_removals
                (rev (configFiles (buildCalls loopEvs))) workingDirs pf
                (configFiles [(dp_Path p, inl opts)])
                (final (generatePlanJSONs_body E p configDirs workingDirs w)))
      as (w1 & ->).
    exists (map fst (removeCalls
                       (events (cleanupPlanFiles E workingDirs pf w1)))).
    cbn [app planCalls buildCalls removeCalls tl firstn].
    rewrite Hrl. split; [reflexivity|].
    apply cleanupPlanFiles_removed_prefix.
Qed.

(** X6.  [generatePlanJSONs] runs the plan command at most once; it makes a
    show call only after a plan command that answered no JSON and no error,
    and at most one per configuration directory; and it removes files and
    logs warnings only after its last call to terragrunt. *)
Theorem plan_shows_only_after_empty_plan p configDirs workingDirs w :
  let r := generatePlanJSONs E p configDirs workingDirs w in
  length (planCalls (events r)) <= 1 /\
  (showCalls (events r) = [] \/
   exists planFile, planCalls (events r) = [(planFile, [], None)]) /\
  length (showCalls (events r)) <= length configDirs /\
  exists work after,
    events r = work ++ after /\
    removeCalls work = [] /\
    warnings work = [] /\
    forallb (fun e => negb (isWorkEvent e)) after = true.
Proof.
  intros r. subst r.
  destruct (generatePlanJSONs_run World Metadata Resources Usage E
              p configDirs workingDirs w) as [_ ->].
  pose proof (unwind_events_cleanup World Metadata Resources Usage E
    (snd (value (generatePlanJSONs_body E p configDirs workingDirs w)))
    (final (generatePlanJSONs_body E p configDirs workingDirs w))) as Hun.
  pose proof (cleanup_events_no_work _ Hun) as Hnw.
  apply cleanup_events_silent in Hun as (Hsu & _ & Hpu & _).
  rewrite planCalls_app, showCalls_app, Hsu, Hpu, !app_nil_r.
  assert (Hlast : exists work after,
             events (generatePlanJSONs_body E p configDirs workingDirs w)
               ++ events
                    (unwind E
                       (snd (value (generatePlanJSONs_body E p configDirs
                                      workingDirs w)))
                       (final (generatePlanJSONs_body E p configDirs
                                 workingDirs w)))
             = work ++ after /\
             removeCalls work = [] /\ warnings work = [] /\
             forallb (fun e => negb (isWorkEvent e)) after = true).
  { eexists _, _. split; [reflexivity|]. split; [|split; [|exact Hnw]].
    - destruct (generatePlanJSONs_body_defers p configDirs workingDirs w)
        as [(_ & Hr & _)|(o & pf & pj & pe & le & -> & _ & Hr & _)];
        [exact Hr|].
      rewrite removeCalls_app, Hr. reflexivity.
    - destruct (generatePlanJSONs_body_defers p configDirs workingDirs w)
        as [(_ & _ & Hw & _)|(o & pf & pj & pe & le & -> & _ & _ & Hw & _)];
        [exact Hw|].
      rewrite warnings_app, Hw. reflexivity. }
  enough (H3 :
    length (planCalls
              (events (generatePlanJSONs_body E p configDirs workingDirs w)))
      <= 1 /\
    (showCalls (events (generatePlanJSONs_body E p configDirs workingDirs w))
       = [] \/
     exists planFile,
       planCalls (events (generatePlanJSONs_body E p configDirs workingDirs w))
       = [(planFile, [], None)]) /\
    length (showCalls
              (events (generatePlanJSONs_body E p configDirs workingDirs w)))
      <= length configDirs)
    by (destruct H3 as (H1 & H2 & H3); repeat split; assumption).
  destruct (generatePlanJSONs_body_script World Metadata Resources Usage E
              p configDirs workingDirs w)
    as [(Hnone & Hs & _)
       |(opts & pf & pj & perr & after & extra & root & Hev & _ & _ & _
         & Hpa & _ & Hcase)].
  - rewrite Hnone, Hs. repeat split; simpl; try lia. left; reflexivity.
  - rewrite Hev. cbn [app planCalls showCalls]. rewrite Hpa.
    split; [simpl; lia|].
    destruct perr as [err|].
    { destruct Hcase as [-> _]. split; [left; reflexivity | simpl; lia]. }
    destruct (Nat.ltb_spec 0 (length pj)) as [Hlen|Hlen].
    { destruct Hcase as [-> _]. split; [left; reflexivity | simpl; lia]. }
    destruct Hcase as (steps & stop & rest & -> & Hp & _).
    assert (pj = []) as -> by (destruct pj; [reflexivity | simpl in Hlen; lia]).
    split; [right; exists pf; reflexivity|].
    cbn [showCalls]. apply (showCalls_length_script steps stop rest), Hp.
Qed.

(** X7.  [generatePlanJSONs] panics only when there are fewer working
    directories than configuration directories, and only in the loop over
    the directories: after a plan command that answered no JSON and no
    error. *)
Theorem plan_panics_only_without_working_dir p configDirs workingDirs w :
  value (generatePlanJSONs E p configDirs workingDirs w) = Panicked ->
  length workingDirs < length configDirs /\
  exists planFile,
    planCalls (events (generatePlanJSONs E p configDirs workingDirs w)) =
    [(planFile, [], None)].
Proof.
  destruct (generatePlanJSONs_run World Metadata Resources Usage E
              p configDirs workingDirs w) as [-> ->].
  pose proof (unwind_events_cleanup World Metadata Resources Usage E
    (snd (value (generatePlanJSONs_body E p configDirs workingDirs w)))
    (final (generatePlanJSONs_body E p configDirs workingDirs w))) as Hun.
  apply cleanup_events_silent in Hun as (_ & _ & Hpu & _).
  rewrite planCalls_app, Hpu, app_nil_r.
  destruct (generatePlanJSONs_body_defers p configDirs workingDirs w)
    as [(_ & _ & _ & _ & Hnp & _)
       |(opts & pf & pj & perr & loopEvs & Hev & Hpl & _ & _ & Hpanic & _)].
  - intros H. contradiction.
  - intros H. destruct (Hpanic H) as (Hlen & -> & ->).
    split; [exact Hlen|]. exists pf.
    rewrite Hev. cbn [app planCalls]. rewrite Hpl. reflexivity.
Qed.

End GeneratorFacts.

(** ** [LoadResources] *)

Section LoadFacts.
Variables World Metadata Resources Usage : Type.
Variable E : Env World Metadata Resources Usage.

(** Discovery calls nothing but its one command. *)
Lemma decodeDirs_events_quiet jsons configDirs workingDirs w :
  forallb (fun e => negb (isWorkEvent e) && negb (isCleanupEvent e))
          (events (decodeDirs E jsons configDirs workingDirs w)) = true.
Proof.
  revert configDirs workingDirs.
  induction jsons as [|j jsons IH]; intros cs ws; simpl; [reflexivity|].
  destruct (json_Unmarshal E j); [apply IH | reflexivity].
Qed.

Lemma quiet_events_silent evs :
  forallb (fun e => negb (isWorkEvent e) && negb (isCleanupEvent e)) evs
    = true ->
  planCalls evs = [] /\ showCalls evs = [] /\ buildCalls evs = [] /\
  removeCalls evs = [] /\ warnings evs = [].
Proof.
  induction evs as [|e evs IH]; simpl; [repeat split|].
  intros H. apply andb_true_iff in H as [He H].
  destruct e; try discriminate He; simpl; apply IH, H.
Qed.

Lemma getProjectDirs_events_silent p w :
  planCalls (events (getProjectDirs E p w)) = [] /\
  showCalls (events (getProjectDirs E p w)) = [] /\
  buildCalls (events (getProjectDirs E p w)) = [] /\
  removeCalls (events (getProjectDirs E p w)) = [] /\
  warnings (events (getProjectDirs E p w)) = [].
Proof.
  unfold getProjectDirs, bind, emit, Cmd, call.
  destruct (env_Cmd E (discoveryOpts p) discoveryArgs w) as [[out|err] w1].
  - pose proof (decodeDirs_events_quiet (splitJSONs out) [] [] w1) as H.
    apply quiet_events_silent in H.
    destruct (decodeDirs E (splitJSONs out) [] [] w1) as [[r evs] w2].
    exact H.
  - repeat split.
Qed.

Lemma getProjectDirs_lengths p w :
  length (fst (fst (value (getProjectDirs E p w)))) =
  length (snd (fst (value (getProjectDirs E p w)))).
Proof.
  unfold getProjectDirs, bind, emit, Cmd, call.
  destruct (env_Cmd E (discoveryOpts p) discoveryArgs w) as [[out|err] w1].
  - pose proof (decodeDirs_lengths World Metadata Resources Usage E
                  (splitJSONs out) [] [] w1 eq_refl) as H.
    destruct (decodeDirs E (splitJSONs out) [] [] w1) as [[r evs] w2].
    exact H.
  - reflexivity.
Qed.

(** [LoadResources], path by path. *)
Lemma LoadResources_discovery_error p usage w err :
  snd (value (getProjectDirs E p w)) = Some err ->
  LoadResources E p usage w =
  (Returned ([], Some err),
   events (getProjectDirs E p w),
   final (getProjectDirs E p w)).
Proof.
  unfold LoadResources, bind.
  destruct (getProjectDirs E p w) as [[[[cs ws] e] evd] wd].
  cbn [value events final fst snd]. intros ->. cbn [ret].
  rewrite app_nil_r. reflexivity.
Qed.

Lemma LoadResources_generated p usage w :
  snd (value (getProjectDirs E p w)) = None ->
  LoadResources E p usage w =
  (match value (generateOuts E p
                  (fst (fst (value (getProjectDirs E p w))))
                  (snd (fst (value (getProjectDirs E p w))))
                  (final (getProjectDirs E p w))) with
   | Panicked => Panicked
   | Returned (_, Some err) => Returned ([], Some err)
   | Returned (outs, None) =>
       projectsLoop E p usage 0
         (fst (fst (value (getProjectDirs E p w)))) outs []
   end,
   events (getProjectDirs E p w)
     ++ events (generateOuts E p
                  (fst (fst (value (getProjectDirs E p w))))
                  (snd (fst (value (getProjectDirs E p w))))
                  (final (getProjectDirs E p w))),
   final (generateOuts E p
            (fst (fst (value (getProjectDirs E p w))))
            (snd (fst (value (getProjectDirs E p w))))
            (final (getProjectDirs E p w)))).
Proof.
  unfold LoadResources, generateOuts, bind.
  destruct (getProjectDirs E p w) as [[[[cs ws] e] evd] wd].
  cbn [value events final fst snd]. intros ->.
  destruct (dp_UseState (tp_DirProvider p)).
  - destruct (generateStateJSONs E p cs wd) as [[[outs [err|]] evg] wg];
      cbn [ret fst snd]; rewrite !app_nil_r; reflexivity.
  - destruct (generatePlanJSONs E (tp_DirProvider p) cs ws wd)
      as [[[[outs [err|]]|] evg] wg];
      cbn [ret fst snd]; rewrite !app_nil_r; reflexivity.
Qed.

(** The loop over the projects: the projects of the first directories, in
    order, until the end, a parse error, or an output that is not there. *)
Lemma projectsLoop_script p usage paths :
  forall i outs projects,
    match projectsLoop E p usage i paths outs projects with
    | Panicked => length outs < i + length paths
    | Returned (ps, err) =>
        exists parsed,
          map (fun o => parseJSON E o usage)
              (firstn (length parsed) (skipn i outs)) = map inl parsed /\
          ps = projects
                 ++ map (fun c => projectFor E p (fst c) (snd c))
                        (combine paths parsed) /\
          match err with
          | None => length parsed = length paths
          | Some e =>
              length parsed < length paths /\
              exists e0 o,
                e = Wrap e0 "Error parsing Terraform JSON" /\
                nth_error outs (i + length parsed) = Some o /\
                parseJSON E o usage = inr e0
          end
    end.
Proof.
  induction paths as [|path paths IH]; intros i outs projects.
  - simpl. exists []. simpl. rewrite app_nil_r. repeat split.
  - cbn [projectsLoop].
    destruct (nth_error outs i) as [out|] eqn:Hout.
    + pose proof (skipn_nth_error _ _ _ Hout) as Hskip.
      destruct (parseJSON E out usage) as [[past res]|e0] eqn:Hparse.
      * specialize (IH (S i) outs
          (projects ++ [projectFor E p path (past, res)])).
        change (projectsLoop E p usage (S i) paths outs
                  (projects ++ [projectFor E p path (past, res)]))
          with (projectsLoop E p usage (S i) paths outs
                  (projects ++
                   [{| Name := GenerateProjectName E
                                 (setType E (DetectProjectMetadata E path)
                                    (Type_ p))
                                 (tp_EnableDashboard p);
                       ProjectMetadata :=
                         setType E (DetectProjectMetadata E path) (Type_ p);
                       HasDiff := negb (dp_UseState (tp_DirProvider p));
                       PastResources :=
                         if negb (dp_UseState (tp_DirProvider p))
                         then Some past else None;
                       ProjectResources := res |}])) in IH.
        destruct (projectsLoop E p usage (S i) paths outs _)
          as [[ps err]|].
        -- destruct IH as (parsed & Hmap & Hps & Herr).
           exists ((past, res) :: parsed). cbn [length].
           rewrite Hskip. cbn [firstn map combine fst snd].
           rewrite Hparse, Hmap, Hps, <- app_assoc.
           split; [reflexivity|]. split; [reflexivity|].
           destruct err as [e|].
           ++ destruct Herr as (Hlt & e1 & o & He & Hnth & Ho).
              split; [lia|]. exists e1, o.
              rewrite Nat.add_succ_r. repeat split; assumption.
           ++ lia.
        -- cbn [length]. lia.
      * exists []. simpl. rewrite app_nil_r, Nat.add_0_r.
        repeat split; [lia|]. exists e0, out. repeat split; assumption.
    + apply nth_error_None in Hout. cbn [length]. lia.
Qed.

Lemma LoadResources_cases p usage w :
  let d := getProjectDirs E p w in
  let g := generateOuts E p (fst (fst (value d))) (snd (fst (value d)))
             (final d) in
  (exists err,
      snd (value d) = Some err /\
      value (LoadResources E p usage w) = Returned ([], Some err)) \/
  (snd (value d) = None /\ value g = Panicked /\
   value (LoadResources E p usage w) = Panicked) \/
  (snd (value d) = None /\
   exists outs err,
     value g = Returned (outs, Some err) /\
     value (LoadResources E p usage w) = Returned ([], Some err)) \/
  (snd (value d) = None /\
   exists outs,
     value g = Returned (outs, None) /\
     value (LoadResources E p usage w) =
       projectsLoop E p usage 0 (fst (fst (value d))) outs []).
Proof.
  intros d g. subst d g.
  destruct (snd (value (getProjectDirs E p w))) as [err|] eqn:Hd.
  - left. exists err. split; [reflexivity|].
    rewrite (LoadResources_discovery_error p usage w err Hd). reflexivity.
  - right. rewrite (LoadResources_generated p usage w Hd).
    cbn [value fst snd].
    destruct (value (generateOuts E p _ _ _)) as [[outs [err|]]|].
    + right. left. split; [reflexivity|]. exists outs, err. split; reflexivity.
    + right. right. split; [reflexivity|]. exists outs. split; reflexivity.
    + left. repeat split.
Qed.

Lemma combine_fst_firstn {A B} (l : list A) (l' : list B) :
  map fst (combine l l') = firstn (length l') l.
Proof.
  revert l'; induction l as [|a l IH]; intros [|b l']; simpl;
    try reflexivity.
  f_equal. apply IH.
Qed.

(** X8.  When discovery fails -- the command or the decoding --
    [LoadResources] returns no project and that error, and stops there: its
    trace is that of discovery, with no option build, no plan or show call
    and no removal. *)
Theorem load_stops_at_discovery_error p usage w err :
  snd (value (getProjectDirs E p w)) = Some err ->
  value (LoadResources E p usage w) = Returned ([], Some err) /\
  events (LoadResources E p usage w) = events (getProjectDirs E p w) /\
  buildCalls (events (LoadResources E p usage w)) = [] /\
  planCalls (events (LoadResources E p usage w)) = [] /\
  showCalls (events (LoadResources E p usage w)) = [] /\
  removeCalls (events (LoadResources E p usage w)) = [].
Proof.
  intros Hd. rewrite (LoadResources_discovery_error p usage w err Hd).
  cbn [value events fst snd].
  destruct (getProjectDirs_events_silent p w) as (Hp & Hs & Hb & Hr & _).
  repeat split; assumption.
Qed.

(** X9.  An error of [LoadResources] comes with projects only when it is a
    parse error: an error of discovery or of the generator is returned as it
    is, with no project; a parse error is returned wrapped, with the
    projects of the directories before the one whose output did not
    parse. *)
Theorem load_error_keeps_projects_only_of_parse_error p usage w projects err :
  value (LoadResources E p usage w) = Returned (projects, Some err) ->
  let d := getProjectDirs E p w in
  let configDirs := fst (fst (value d)) in
  let g := generateOuts E p configDirs (snd (fst (value d))) (final d) in
  (projects = [] /\
   (snd (value d) = Some err \/
    exists outs, value g = Returned (outs, Some err))) \/
  (exists outs parsed err0 out,
      value g = Returned (outs, None) /\
      err = Wrap err0 "Error parsing Terraform JSON" /\
      length parsed < length configDirs /\
      map (fun o => parseJSON E o usage) (firstn (length parsed) outs)
        = map inl parsed /\
      nth_error outs (length parsed) = Some out /\
      parseJSON E out usage = inr err0 /\
      projects = map (fun c => projectFor E p (fst c) (snd c))
                     (combine configDirs parsed)).
Proof.
  intros HL d configDirs g. subst d configDirs g.
  destruct (LoadResources_cases p usage w)
    as [(e & Hd & Hv)|[(Hd & Hg & Hv)|[(Hd & outs & e & Hg & Hv)
       |(Hd & outs & Hg & Hv)]]];
    rewrite Hv in HL.
  - injection HL as <- <-. left. split; [reflexivity|]. left. exact Hd.
  - discriminate HL.
  - injection HL as <- <-. left. split; [reflexivity|].
    right. exists outs. exact Hg.
  - right.
    pose proof (projectsLoop_script p usage
                  (fst (fst (value (getProjectDirs E p w)))) 0 outs []) as H.
    rewrite HL in H.
    destruct H as (parsed & Hmap & Hps & Hlt & e0 & o & He & Hnth & Ho).
    exists outs, parsed, e0, o. repeat split; assumption.
Qed.

(** X10.  When [LoadResources] succeeds it returns one project per
    discovered configuration directory, in the order of discovery, each
    built from the parse of the output of the same index. *)
Theorem load_success_one_project_per_directory p usage w projects :
  value (LoadResources E p usage w) = Returned (projects, None) ->
  let d := getProjectDirs E p w in
  let configDirs := fst (fst (value d)) in
  let g := generateOuts E p configDirs (snd (fst (value d))) (final d) in
  snd (value d) = None /\
  length projects = length configDirs /\
  exists outs parsed,
    value g = Returned (outs, None) /\
    length parsed = length configDirs /\
    map (fun o => parseJSON E o usage) (firstn (length configDirs) outs)
      = map inl parsed /\
    projects = map (fun c => projectFor E p (fst c) (snd c))
                   (combine configDirs parsed).
Proof.
  intros HL d configDirs g. subst d configDirs g.
  destruct (LoadResources_cases p usage w)
    as [(e & Hd & Hv)|[(Hd & Hg & Hv)|[(Hd & outs & e & Hg & Hv)
       |(Hd & outs & Hg & Hv)]]];
    rewrite Hv in HL; try discriminate HL.
  pose proof (projectsLoop_script p usage
                (fst (fst (value (getProjectDirs E p w)))) 0 outs []) as H.
  rewrite HL in H. destruct H as (parsed & Hmap & Hps & Hlen).
  split; [exact Hd|]. split.
  - rewrite Hps. cbn [app]. rewrite length_map, length_combine. lia.
  - exists outs, parsed. rewrite <- Hlen. repeat split; assumption.
Qed.

(** X11.  Every project [LoadResources] returns, beside an error or not,
    has a diff exactly when the provider does not read persisted state, and
    past resources exactly when it has a diff; and the projects are those of
    the first discovered directories, in order, with the metadata detected
    for the directory, of type terragrunt, and the name generated from it. *)
Theorem load_projects_follow_mode_and_directories p usage w projects err :
  value (LoadResources E p usage w) = Returned (projects, err) ->
  let configDirs := fst (fst (value (getProjectDirs E p w))) in
  Forall (fun pr =>
            HasDiff pr = negb (dp_UseState (tp_DirProvider p)) /\
            (PastResources pr = None <-> HasDiff pr = false)) projects /\
  map (@ProjectMetadata _ _) projects =
    map (fun path => setType E (DetectProjectMetadata E path) "terragrunt")
        (firstn (length projects) configDirs) /\
  map (@Name _ _) projects =
    map (fun path =>
           GenerateProjectName E
             (setType E (DetectProjectMetadata E path) "terragrunt")
             (tp_EnableDashboard p))
        (firstn (length projects) configDirs).
Proof.
  intros HL configDirs. subst configDirs.
  destruct (LoadResources_cases p usage w)
    as [(e & Hd & Hv)|[(Hd & Hg & Hv)|[(Hd & outs & e & Hg & Hv)
       |(Hd & outs & Hg & Hv)]]];
    rewrite Hv in HL; try discriminate HL;
    try (injection HL as <- <-; repeat split; constructor).
  pose proof (projectsLoop_script p usage
                (fst (fst (value (getProjectDirs E p w)))) 0 outs []) as H.
  rewrite HL in H. destruct H as (parsed & _ & -> & _). cbn [app].
  assert (Hlen : length (map (fun c => projectFor E p (fst c) (snd c))
                             (combine
                                (fst (fst (value (getProjectDirs E p w))))
                                parsed))
                 = length (combine (fst (fst (value (getProjectDirs E p w))))
                                   parsed))
    by apply length_map.
  rewrite Hlen.
  assert (Hfst : firstn (length (combine
                                   (fst (fst (value (getProjectDirs E p w))))
                                   parsed))
                        (fst (fst (value (getProjectDirs E p w))))
                 = map fst (combine
                              (fst (fst (value (getProjectDirs E p w))))
                              parsed)).
  { rewrite combine_fst_firstn, length_combine.
    destruct (Nat.min_spec
                (length (fst (fst (value (getProjectDirs E p w)))))
                (length parsed)) as [[Hlt ->]|[Hge ->]].
    - rewrite firstn_all. symmetry. apply firstn_all2. lia.
    - reflexivity. }
  rewrite Hfst, !map_map. split; [|split; reflexivity].
  apply Forall_map, Forall_forall. intros c _. cbn [projectFor HasDiff PastResources].
  split; [reflexivity|].
  destruct (dp_UseState (tp_DirProvider p)); simpl; split;
    congruence.
Qed.

Lemma generateStateJSONs_success_length p configDirs w outs :
  value (generateStateJSONs E p configDirs w) = (outs, None) ->
  length outs = length configDirs.
Proof.
  intros H.
  destruct (generateStateJSONs_script World Metadata Resources Usage E
              p configDirs w)
    as [(err & Hv & _)|(steps & stop & rest & Hp & Hc & Hv & _)];
    rewrite H in Hv; [discriminate Hv|].
  destruct stop; try discriminate Hv.
  cbn [loopValue stopPath app] in *. injection Hv as ->.
  rewrite (Hc eq_refl), app_nil_r in Hp. rewrite Hp, !length_map. reflexivity.
Qed.

Lemma generatePlanJSONs_success_shape p configDirs workingDirs w outs :
  value (generatePlanJSONs E p configDirs workingDirs w) = Returned (outs, None) ->
  length outs = length configDirs \/
  exists planFile planJSON,
    planJSON <> [] /\ outs = [planJSON] /\
    planCalls (events (generatePlanJSONs E p configDirs workingDirs w)) =
    [(planFile, planJSON, None)].
Proof.
  destruct (generatePlanJSONs_run World Metadata Resources Usage E
              p configDirs workingDirs w) as [-> ->].
  pose proof (unwind_events_cleanup World Metadata Resources Usage E
    (snd (value (generatePlanJSONs_body E p configDirs workingDirs w)))
    (final (generatePlanJSONs_body E p configDirs workingDirs w))) as Hun.
  apply cleanup_events_silent in Hun as (_ & _ & Hpu & _).
  rewrite planCalls_app, Hpu, app_nil_r.
  destruct (generatePlanJSONs_body_script World Metadata Resources Usage E
              p configDirs workingDirs w)
    as [(_ & _ & _ & _ & err & -> & _)
       |(opts & pf & pj & perr & after & extra & root & Hev & _ & _ & _
         & Hpa & _ & Hcase)]; [discriminate|].
  destruct perr as [err|]; [destruct Hcase as [_ ->]; discriminate|].
  destruct (Nat.ltb_spec 0 (length pj)) as [Hlen|Hlen].
  - destruct Hcase as [-> ->]. intros [= <-]. right. exists pf, pj.
    rewrite Hev. repeat split.
    intros ->. simpl in Hlen. lia.
  - destruct Hcase as (steps & stop & rest & _ & Hp & Hc & -> & _).
    destruct stop; try discriminate.
    cbn [loopValue stopPath app]. intros [= <-]. left.
    rewrite (Hc eq_refl), app_nil_r in Hp. rewrite Hp, !length_map.
    reflexivity.
Qed.

Lemma generateOuts_state p configDirs workingDirs w :
  dp_UseState (tp_DirProvider p) = true ->
  value (generateOuts E p configDirs workingDirs w) =
    Returned (value (generateStateJSONs E p configDirs w)) /\
  events (generateOuts E p configDirs workingDirs w) =
    events (generateStateJSONs E p configDirs w).
Proof.
  intros H. unfold generateOuts. rewrite H, bind_run.
  cbn [value events ret fst snd]. rewrite app_nil_r. split; reflexivity.
Qed.

Lemma generateOuts_plan p configDirs workingDirs w :
  dp_UseState (tp_DirProvider p) = false ->
  generateOuts E p configDirs workingDirs w =
  generatePlanJSONs E (tp_DirProvider p) configDirs workingDirs w.
Proof. intros H. unfold generateOuts. rewrite H. reflexivity. Qed.

(** X12.  [LoadResources] panics in one situation only: the provider makes
    a fresh plan, the plan command answers JSON for the whole tree, and
    discovery found two directories or more.  With persisted state, or with
    a plan file per directory, it always returns. *)
Theorem load_panics_only_on_unified_plan p usage w :
  value (LoadResources E p usage w) = Panicked ->
  dp_UseState (tp_DirProvider p) = false /\
  2 <= length (fst (fst (value (getProjectDirs E p w)))) /\
  exists planFile planJSON,
    planJSON <> [] /\
    planCalls (events (LoadResources E p usage w)) =
    [(planFile, planJSON, None)].
Proof.
  intros HL.
  destruct (LoadResources_cases p usage w)
    as [(e & Hd & Hv)|[(Hd & Hg & Hv)|[(Hd & outs & e & Hg & Hv)
       |(Hd & outs & Hg & Hv)]]];
    rewrite Hv in HL; try discriminate HL.
  - exfalso. destruct (dp_UseState (tp_DirProvider p)) eqn:Hmode.
    + destruct (generateOuts_state p
                  (fst (fst (value (getProjectDirs E p w))))
                  (snd (fst (value (getProjectDirs E p w))))
                  (final (getProjectDirs E p w)) Hmode) as [Hs _].
      rewrite Hs in Hg. discriminate Hg.
    + rewrite (generateOuts_plan _ _ _ _ Hmode) in Hg.
      destruct (generatePlanJSONs_run World Metadata Resources Usage E
                  (tp_DirProvider p)
                  (fst (fst (value (getProjectDirs E p w))))
                  (snd (fst (value (getProjectDirs E p w))))
                  (final (getProjectDirs E p w))) as [Hval _].
      rewrite Hval in Hg.
      pose proof (getProjectDirs_lengths p w) as Hlen.
      destruct (generatePlanJSONs_body_defers World Metadata Resources Usage E
                  (tp_DirProvider p)
                  (fst (fst (value (getProjectDirs E p w))))
                  (snd (fst (value (getProjectDirs E p w))))
                  (final (getProjectDirs E p w)))
        as [(_ & _ & _ & _ & Hnp & _)
           |(o & pf & pj & pe & le & _ & _ & _ & _ & Hpanic & _)].
      * contradiction.
      * destruct (Hpanic Hg) as [Hlt _]. lia.
  - pose proof (projectsLoop_script p usage
                  (fst (fst (value (getProjectDirs E p w)))) 0 outs []) as H.
    rewrite HL in H. cbn [Nat.add] in H.
    rewrite (LoadResources_generated p usage w Hd). cbn [events fst snd].
    destruct (getProjectDirs_events_silent p w) as (Hpd & _).
    rewrite planCalls_app, Hpd. cbn [app].
    destruct (dp_UseState (tp_DirProvider p)) eqn:Hmode.
    + exfalso.
      destruct (generateOuts_state p
                  (fst (fst (value (getProjectDirs E p w))))
                  (snd (fst (value (getProjectDirs E p w))))
                  (final (getProjectDirs E p w)) Hmode) as [Hs _].
      rewrite Hs in Hg. injection Hg as Hg.
      apply generateStateJSONs_success_length in Hg. lia.
    + rewrite (generateOuts_plan _ _ _ _ Hmode) in Hg |- *.
      apply generatePlanJSONs_success_shape in Hg
        as [Hlen|(pf & pj & Hne & -> & Hplan)]; [lia|].
      split; [reflexivity|]. split; [simpl in H; lia|].
      exists pf, pj. split; assumption.
Qed.

End LoadFacts.

(** ** Removals do not decide results *)

Section RemoveIndependence.
Variables World Metadata Resources Usage : Type.
Variable E : Env World Metadata Resources Usage.
Variable remove : string -> World -> option error * World.

Lemma decodeDirs_withRemove jsons configDirs workingDirs w :
  decodeDirs (withRemove E remove) jsons configDirs workingDirs w =
  decodeDirs E jsons configDirs workingDirs w.
Proof.
  revert configDirs workingDirs.
  induction jsons as [|j jsons IH]; intros cs ws; [reflexivity|].
  cbn [decodeDirs].
  change (json_Unmarshal (withRemove E remove) j) with (json_Unmarshal E j).
  destruct (json_Unmarshal E j); [|reflexivity].
  change (filepath_Dir (withRemove E remove)) with (filepath_Dir E).
  apply IH.
Qed.

Lemma getProjectDirs_withRemove p w :
  getProjectDirs (withRemove E remove) p w = getProjectDirs E p w.
Proof.
  unfold getProjectDirs, bind.
  destruct (emit (EvSpinnerNew "Running terragrunt run-all terragrunt-info") w)
    as [[[] e0] w0].
  change (Cmd (withRemove E remove)) with (Cmd E).
  destruct (Cmd E (discoveryOpts p) discoveryArgs w0) as [[[out|err] e1] w1];
    [|reflexivity].
  rewrite decodeDirs_withRemove. reflexivity.
Qed.

Lemma stateLoop_withRemove p paths outs ds w :
  stateLoop (withRemove E remove) p paths outs ds w =
  stateLoop E p paths outs ds w.
Proof.
  revert outs ds w. induction paths as [|path paths IH]; intros outs ds w;
    [reflexivity|].
  cbn [stateLoop]. unfold bind.
  change (buildCommandOpts (withRemove E remove)) with (buildCommandOpts E).
  destruct (buildCommandOpts E p path w) as [[[opts|err] e1] w1];
    [|reflexivity].
  change (runShow (withRemove E remove)) with (runShow E).
  destruct (runShow E p opts EmptyString w1) as [[[out|err] e2] w2];
    [|reflexivity].
  rewrite IH. reflexivity.
Qed.

Lemma generateStateJSONs_body_withRemove p configDirs w :
  generateStateJSONs_body (withRemove E remove) p configDirs w =
  generateStateJSONs_body E p configDirs w.
Proof.
  unfold generateStateJSONs_body, bind.
  change (checks (withRemove E remove)) with (checks E).
  destruct (checks E (tp_DirProvider p) w) as [[[err|] e1] w1];
    [reflexivity|].
  destruct (emit (EvSpinnerNew (showSpinnerMsg configDirs)) w1)
    as [[[] e2] w2].
  rewrite stateLoop_withRemove. reflexivity.
Qed.

Lemma generateStateJSONs_withRemove_value p configDirs w :
  value (generateStateJSONs (withRemove E remove) p configDirs w) =
  value (generateStateJSONs E p configDirs w).
Proof.
  unfold generateStateJSONs.
  rewrite !withDefers_run. cbn [value fst snd].
  rewrite generateStateJSONs_body_withRemove. reflexivity.
Qed.

(** X13.  What [LoadResources] returns does not depend on what any removal
    of a file answers: a config file or plan file that cannot be removed
    changes neither the projects nor the error. *)
Theorem load_result_ignores_removals p usage w :
  value (LoadResources (withRemove E remove) p usage w) =
  value (LoadResources E p usage w).
Proof.
  destruct (snd (value (getProjectDirs E p w))) as [err|] eqn:Hd.
  - rewrite (LoadResources_discovery_error World Metadata Resources Usage E
               p usage w err Hd).
    rewrite (LoadResources_discovery_error World Metadata Resources Usage
               (withRemove E remove) p usage w err);
      [reflexivity | rewrite getProjectDirs_withRemove; exact Hd].
  - rewrite (LoadResources_generated World Metadata Resources Usage E
               p usage w Hd).
    rewrite (LoadResources_generated World Metadata Resources Usage
               (withRemove E remove) p usage w);
      [|rewrite getProjectDirs_withRemove; exact Hd].
    rewrite getProjectDirs_withRemove. cbn [value fst snd].
    assert (Hg : value (generateOuts (withRemove E remove) p
                          (fst (fst (value (getProjectDirs E p w))))
                          (snd (fst (value (getProjectDirs E p w))))
                          (final (getProjectDirs E p w)))
                 = value (generateOuts E p
                            (fst (fst (value (getProjectDirs E p w))))
                            (snd (fst (value (getProjectDirs E p w))))
                            (final (getProjectDirs E p w)))).
    { unfold generateOuts.
      destruct (dp_UseState (tp_DirProvider p)).
      - rewrite !value_bind. cbn [value ret fst snd].
        rewrite generateStateJSONs_withRemove_value. reflexivity.
      - destruct (generatePlanJSONs_run World Metadata Resources Usage
                    (withRemove E remove) (tp_DirProvider p)
                    (fst (fst (value (getProjectDirs E p w))))
                    (snd (fst (value (getProjectDirs E p w))))
                    (final (getProjectDirs E p w))) as [-> _].
        destruct (generatePlanJSONs_run World Metadata Resources Usage
                    E (tp_DirProvider p)
                    (fst (fst (value (getProjectDirs E p w))))
                    (snd (fst (value (getProjectDirs E p w))))
                    (final (getProjectDirs E p w))) as [-> _].
        rewrite generatePlanJSONs_body_withRemove. reflexivity. }
    rewrite Hg.
    destruct (value (generateOuts E p _ _ _)) as [[outs [e|]]|];
      reflexivity.
Qed.

End RemoveIndependence.

(** ** The first failure is the last call *)

Lemma failure_split_unique (a u pre post : list Event) (x y : Event) :
  forallb (fun e => negb (isFailure e)) a = true ->
  forallb (fun e => negb (isFailure e)) u = true ->
  a ++ x :: u = pre ++ y :: post ->
  isFailure y = true ->
  post = u.
Proof.
  intros Ha Hu. revert pre. induction a as [|a0 a IH]; intros pre H Hy.
  - destruct pre as [|z pre]; simpl in H.
    + injection H as _ H. symmetry. exact H.
    + injection H as _ H. exfalso. rewrite H, forallb_app in Hu.
      apply andb_true_iff in Hu as [_ Hu]. simpl in Hu. rewrite Hy in Hu.
      discriminate Hu.
  - simpl in Ha. apply andb_true_iff in Ha as [Ha0 Ha].
    destruct pre as [|z pre]; simpl in H.
    + injection H as -> _. rewrite Hy in Ha0. discriminate Ha0.
    + injection H as _ H. exact (IH Ha pre H Hy).
Qed.

Lemma no_failure_no_split (l pre post : list Event) (y : Event) :
  forallb (fun e => negb (isFailure e)) l = true ->
  l = pre ++ y :: post ->
  isFailure y = true ->
  False.
Proof.
  intros Hl -> Hy. rewrite forallb_app in Hl.
  apply andb_true_iff in Hl as [_ Hl]. simpl in Hl. rewrite Hy in Hl.
  discriminate Hl.
Qed.

Lemma steps_no_failure steps :
  forallb (fun e => negb (isFailure e)) (flat_map stepEvents steps) = true.
Proof. induction steps as [|s steps IH]; simpl; [reflexivity | exact IH]. Qed.

Lemma cleanup_events_no_failure evs :
  forallb isCleanupEvent evs = true ->
  forallb (fun e => negb (isFailure e)) evs = true.
Proof.
  induction evs as [|e evs IH]; simpl; [reflexivity|].
  intros H. apply andb_true_iff in H as [He H].
  rewrite (IH H). destruct e; try discriminate He; reflexivity.
Qed.

(** A loop trace followed by an unwinding: after a failed call come only
    events of the unwinding. *)
Lemma script_fails_last (front : list Event) steps stop u pre post y :
  forallb (fun e => negb (isFailure e)) front = true ->
  forallb isCleanupEvent u = true ->
  (front ++ flat_map stepEvents steps ++ stopEvents stop) ++ u
    = pre ++ y :: post ->
  isFailure y = true ->
  post = u.
Proof.
  intros Hfront Hu H Hy.
  pose proof (cleanup_events_no_failure u Hu) as Hnf.
  pose proof (steps_no_failure steps) as Hsteps.
  destruct stop as [|path err|path opts planFile err|path opts];
    cbn [stopEvents] in H.
  - exfalso. apply (no_failure_no_split _ pre post y) in H; [exact H| |exact Hy].
    rewrite app_nil_r, !forallb_app, Hfront, Hsteps, Hnf. reflexivity.
  - apply (failure_split_unique (front ++ flat_map stepEvents steps) u
             pre post (EvBuildOpts path (inr err)) y); try assumption.
    + rewrite forallb_app, Hfront, Hsteps. reflexivity.
    + rewrite <- H, <- !app_assoc. reflexivity.
  - apply (failure_split_unique
             (front ++ flat_map stepEvents steps
                ++ [EvBuildOpts path (inl opts)]) u
             pre post (EvShow opts planFile (inr err)) y); try assumption.
    + rewrite !forallb_app, Hfront, Hsteps. reflexivity.
    + rewrite <- H, <- !app_assoc. reflexivity.
  - exfalso. apply (no_failure_no_split _ pre post y) in H; [exact H| |exact Hy].
    rewrite !forallb_app, Hfront, Hsteps, Hnf. reflexivity.
Qed.

Section FailFast.
Variables World Metadata Resources Usage : Type.
Variable E : Env World Metadata Resources Usage.

(** X14.  In both generators a call that answers an error -- the checks,
    an option build, the plan command, a show call -- is the last call
    made: whatever follows it in the trace is a removal of a file or a
    warning.  Nothing is tried again, and no later directory is visited. *)
Theorem generators_stop_at_first_failure :
  (forall p configDirs w pre y post,
      events (generateStateJSONs E p configDirs w) = pre ++ y :: post ->
      isFailure y = true ->
      forallb isCleanupEvent post = true) /\
  (forall p configDirs workingDirs w pre y post,
      events (generatePlanJSONs E p configDirs workingDirs w)
        = pre ++ y :: post ->
      isFailure y = true ->
      forallb isCleanupEvent post = true).
Proof.
  split.
  - intros p configDirs w pre y post. unfold generateStateJSONs.
    rewrite (withDefers_run World Metadata Resources Usage E).
    cbn [events fst snd].
    pose proof (unwind_events_cleanup World Metadata Resources Usage E
                  (snd (value (generateStateJSONs_body E p configDirs w)))
                  (final (generateStateJSONs_body E p configDirs w))) as Hun.
    destruct (generateStateJSONs_body_script World Metadata Resources Usage E
                p configDirs w)
      as [(err & Hev & Hv)|(steps & stop & rest & Hev & _)].
    + rewrite Hev, Hv in *. cbn [value fst snd unwind ret events] in *.
      intros H Hy.
      rewrite (failure_split_unique [] [] pre post (EvChecks (Some err)) y
                 eq_refl eq_refl H Hy). reflexivity.
    + rewrite Hev. intros H Hy.
      rewrite (script_fails_last
                 [EvChecks None; EvSpinnerNew (showSpinnerMsg configDirs)]
                 steps stop _ pre post y eq_refl Hun H Hy).
      exact Hun.
  - intros p configDirs workingDirs w pre y post.
    destruct (generatePlanJSONs_run World Metadata Resources Usage E
                p configDirs workingDirs w) as [_ ->].
    pose proof (unwind_events_cleanup World Metadata Resources Usage E
      (snd (value (generatePlanJSONs_body E p configDirs workingDirs w)))
      (final (generatePlanJSONs_body E p configDirs workingDirs w))) as Hun.
    pose proof (cleanup_events_no_failure _ Hun) as Hnf.
    unfold generatePlanJSONs_body at 1.
    revert Hun Hnf.
    generalize (events
      (unwind E
         (snd (value (generatePlanJSONs_body E p configDirs workingDirs w)))
         (final (generatePlanJSONs_body E p configDirs workingDirs w)))).
    intros u Hun Hnf.
    unfold bind, checks, buildCommandOpts, runPlan, call, emit, ret, events.
    destruct (env_checks E p w) as [[err|] w1]; cbn [fst snd app].
    { intros H Hy.
      rewrite (failure_split_unique [] u pre post (EvChecks (Some err)) y
                 eq_refl Hnf H Hy). exact Hun. }
    destruct (env_buildCommandOpts E p (dp_Path p) w1) as [[opts|err] w2];
      cbn [fst snd app].
    2:{ intros H Hy.
        rewrite (failure_split_unique [EvChecks None] u pre post
                   (EvBuildOpts (dp_Path p) (inr err)) y eq_refl Hnf H Hy).
        exact Hun. }
    destruct (env_runPlan E p opts true w2) as [[[planFile planJSON] perr] w3].
    destruct perr as [err|]; cbn [fst snd app].
    { intros H Hy.
      rewrite (failure_split_unique
                 [EvChecks None; EvBuildOpts (dp_Path p) (inl opts);
                  EvSpinnerNew "Running terragrunt run-all plan"]
                 u pre post
                 (EvPlan opts true (planFile, planJSON, Some err)) y
                 eq_refl Hnf H Hy).
      exact Hun. }
    destruct (Nat.ltb 0 (length planJSON)); cbn [fst snd app].
    { intros H Hy. exfalso.
      apply (no_failure_no_split _ pre post y) in H; [exact H| |exact Hy].
      cbn [forallb isFailure negb andb]. exact Hnf. }
    destruct (planLoop_script World Metadata Resources Usage E p workingDirs
                planFile 0 configDirs []
                (DeferCleanup workingDirs planFile :: deferConfigFile opts [])
                w3)
      as (steps & stop & rest & extra & _ & _ & Hev & _).
    unfold events in Hev.
    destruct (planLoop E p workingDirs planFile 0 configDirs []
                (DeferCleanup workingDirs planFile :: deferConfigFile opts [])
                w3) as [[v evs] w4].
    cbn [fst snd] in *. subst evs. intros H Hy.
    rewrite (script_fails_last
               [EvChecks None; EvBuildOpts (dp_Path p) (inl opts);
                EvSpinnerNew "Running terragrunt run-all plan";
                EvPlan opts true (planFile, planJSON, None);
                EvSpinnerNew (showSpinnerMsg configDirs)]
               steps stop u pre post y eq_refl Hun H Hy).
    exact Hun.
Qed.

End FailFast.

(** ** From the constructor to the calls *)

Section Composition.
Variables World Metadata Resources Usage : Type.
Variable E : Env World Metadata Resources Usage.

(** X15.  A provider made by [NewTerragruntProvider] runs discovery with the
    binary of the project configuration, or with terragrunt when none is
    configured -- never with an empty name -- in the path of the project,
    with the three fixed arguments; it is marked as terragrunt, and it keeps
    the mode and the path of the directory provider it was built on. *)
Theorem new_provider_runs_configured_binary NewDirProvider ctx w :
  let p := NewTerragruntProvider NewDirProvider ctx in
  let binary := if String.eqb (pc_TerraformBinary ctx) EmptyString
                then "terragrunt"%string else pc_TerraformBinary ctx in
  binary <> EmptyString /\
  (exists answer rest,
      events (getProjectDirs E p w) =
      EvSpinnerNew "Running terragrunt run-all terragrunt-info"
        :: EvCmd {| TerraformBinary := binary;
                    Dir := pc_Path ctx;
                    TerraformConfigFile := EmptyString |}
                 ["run-all"; "--terragrunt-ignore-external-dependencies";
                  "terragrunt-info"]
                 answer
        :: rest) /\
  dp_IsTerragrunt (tp_DirProvider p) = true /\
  dp_UseState (tp_DirProvider p) = dp_UseState (NewDirProvider ctx) /\
  dp_Path (tp_DirProvider p) = dp_Path (NewDirProvider ctx).
Proof.
  intros p binary. subst p binary. split; [|split; [|repeat split]].
  - destruct (String.eqb_spec (pc_TerraformBinary ctx) EmptyString);
      [discriminate | assumption].
  - unfold getProjectDirs, bind, emit, Cmd, call.
    destruct (env_Cmd E _ discoveryArgs w) as [[out|err] w1] eqn:Hcmd.
    + destruct (decodeDirs E (splitJSONs out) [] [] w1) as [[r evs] w2].
      eexists _, _. reflexivity.
    + eexists _, _. reflexivity.
Qed.

(** The show calls of a fresh plan with a plan file per directory. *)
Lemma generatePlanJSONs_show_files p configDirs workingDirs w planFile outs :
  value (generatePlanJSONs E p configDirs workingDirs w) = Returned (outs, None) ->
  planCalls (events (generatePlanJSONs E p configDirs workingDirs w))
    = [(planFile, [], None)] ->
  map (fun c => snd (fst c))
      (showCalls (events (generatePlanJSONs E p configDirs workingDirs w))) =
  map (fun wd => filepath_Join E wd planFile)
      (firstn (length configDirs) workingDirs).
Proof.
  destruct (generatePlanJSONs_run World Metadata Resources Usage E
              p configDirs workingDirs w) as [-> ->].
  pose proof (unwind_events_cleanup World Metadata Resources Usage E
    (snd (value (generatePlanJSONs_body E p configDirs workingDirs w)))
    (final (generatePlanJSONs_body E p configDirs workingDirs w))) as Hun.
  apply cleanup_events_silent in Hun as (Hs & _ & Hpl & _).
  rewrite planCalls_app, showCalls_app, Hs, Hpl, !app_nil_r.
  destruct (generatePlanJSONs_body_script World Metadata Resources Usage E
              p configDirs workingDirs w)
    as [(Hnone & _)
       |(opts & pf & pj & perr & after & extra & root & Hev & _ & _ & _
         & Hpa & _ & Hcase)].
  { rewrite Hnone. discriminate. }
  rewrite Hev. cbn [app planCalls showCalls]. rewrite Hpa.
  intros Hval [= -> -> ->]. cbn [length Nat.ltb Nat.leb] in Hcase.
  destruct Hcase as (steps & stop & rest & -> & Hp & Hc & Hv & Hpf & _).
  rewrite Hv in Hval. destruct stop; try discriminate Hval.
  cbn [stopPath stopPlanFile app length] in *.
  rewrite (Hc eq_refl) in Hp. rewrite !app_nil_r in *.
  rewrite Nat.add_0_r in Hpf.
  cbn [showCalls stopEvents]. rewrite ?app_nil_r, showCalls_steps, map_map.
  cbn [fst snd]. rewrite Hp, length_map. exact Hpf.
Qed.

(** X16.  When [LoadResources] makes a fresh plan and the plan command
    leaves a plan file per directory, a successful run shows, for the i-th
    discovered directory, the plan file in the working directory of the
    i-th discovered record -- one show call per record, in the order of
    discovery. *)
Theorem load_shows_plan_file_of_each_working_dir p usage w projects planFile :
  dp_UseState (tp_DirProvider p) = false ->
  value (LoadResources E p usage w) = Returned (projects, None) ->
  planCalls (events (LoadResources E p usage w)) = [(planFile, [], None)] ->
  map (fun c => snd (fst c)) (showCalls (events (LoadResources E p usage w))) =
  map (fun wd => filepath_Join E wd planFile)
      (snd (fst (value (getProjectDirs E p w)))).
Proof.
  intros Hmode HL.
  destruct (LoadResources_cases World Metadata Resources Usage E p usage w)
    as [(e & Hd & Hv)|[(Hd & Hg & Hv)|[(Hd & outs & e & Hg & Hv)
       |(Hd & outs & Hg & Hv)]]];
    rewrite Hv in HL; try discriminate HL.
  rewrite (LoadResources_generated World Metadata Resources Usage E
             p usage w Hd).
  cbn [events fst snd].
  destruct (getProjectDirs_events_silent World Metadata Resources Usage E p w)
    as (Hpd & Hsd & _).
  rewrite planCalls_app, showCalls_app, Hpd, Hsd. cbn [app].
  rewrite (generateOuts_plan World Metadata Resources Usage E _ _ _ _ Hmode)
    in Hg |- *.
  intros Hplan.
  rewrite (generatePlanJSONs_show_files _ _ _ _ planFile outs Hg Hplan).
  rewrite (getProjectDirs_lengths World Metadata Resources Usage E p w).
  rewrite firstn_all. reflexivity.
Qed.

End Composition.

(** ** More runs of the scripted environment *)

(** Two terminated records and a third without line break: two
    directories. *)
Lemma discovery_unterminated_third_run :
  value (getProjectDirs
           (scripted (withStdout (tree [infoA; infoB; infoC] perDirectoryPlan)
                        unterminatedStream))
           (theProvider false) 0)
  = (dirsAB, workAB, None) /\
  length [infoA; infoB] = length [infoStream [infoA]; infoStream [infoB]].
Proof.
  apply (discovery_reads_terminated_documents nat string bytes unit
           (scripted (withStdout (tree [infoA; infoB; infoC] perDirectoryPlan)
                        unterminatedStream))
           (theProvider false) 0 1
           [infoStream [infoA]; infoStream [infoB]]
           (list_byte_of_string (infoJSON infoC))
           [infoA; infoB]).
  - vm_compute. reflexivity.
  - discriminate.
  - repeat constructor.
    + exists (removelast (removelast (infoStream [infoA]))).
      vm_compute. split; reflexivity.
    + exists (removelast (removelast (infoStream [infoB]))).
      vm_compute. split; reflexivity.
  - vm_compute. reflexivity.
  - vm_compute. reflexivity.
Defined.

Lemma discovery_success_run :
  exists out infos,
    fst (env_Cmd (scripted (tree [infoA] perDirectoryPlan))
           (discoveryOpts (theProvider false)) discoveryArgs 0) = inl out /\
    map (json_Unmarshal (scripted (tree [infoA] perDirectoryPlan)))
        (splitJSONs out) = map inl infos /\
    ["/repo/a"] = map (fun info => scriptedDir (ConfigPath info)) infos /\
    ["/repo/a/.cache"] = map WorkingDir infos /\
    length ["/repo/a"] = length (splitJSONs out) /\
    ["/repo/a"] <> [].
Proof.
  apply (discovery_success_has_a_directory nat string bytes unit
           (scripted (tree [infoA] perDirectoryPlan)) (theProvider false) 0
           ["/repo/a"] ["/repo/a/.cache"]).
  vm_compute. reflexivity.
Defined.

(** One working directory for two configuration directories: the second
    turn of the loop panics. *)
Lemma plan_short_working_dirs_run :
  length ["/repo/a/.cache"] < length dirsAB /\
  exists planFile,
    planCalls
      (events (generatePlanJSONs
                 (scripted (tree [infoA; infoB] perDirectoryPlan))
                 (tp_DirProvider (theProvider false))
                 dirsAB ["/repo/a/.cache"] 0))
    = [(planFile, [], None)].
Proof.
  apply (plan_panics_only_without_working_dir nat string bytes unit
           (scripted (tree [infoA; infoB] perDirectoryPlan))
           (tp_DirProvider (theProvider false)) dirsAB ["/repo/a/.cache"] 0).
  vm_compute. reflexivity.
Defined.

Lemma load_discovery_error_run :
  let E := scripted (withFailedDiscovery (tree [infoA] perDirectoryPlan)
                       "exit status 1") in
  value (LoadResources E (theProvider false) tt 0)
    = Returned ([], Some "exit status 1") /\
  events (LoadResources E (theProvider false) tt 0)
    = events (getProjectDirs E (theProvider false) 0) /\
  buildCalls (events (LoadResources E (theProvider false) tt 0)) = [] /\
  planCalls (events (LoadResources E (theProvider false) tt 0)) = [] /\
  showCalls (events (LoadResources E (theProvider false) tt 0)) = [] /\
  removeCalls (events (LoadResources E (theProvider false) tt 0)) = [].
Proof.
  apply (load_stops_at_discovery_error nat string bytes unit
           (scripted (withFailedDiscovery (tree [infoA] perDirectoryPlan)
                        "exit status 1"))
           (theProvider false) tt 0 "exit status 1").
  reflexivity.
Defined.

(** The output of the second of three directories does not parse: the
    project of the first is returned with the wrapped error. *)
Lemma load_parse_error_run :
  let E := withParse (scripted (tree [infoA; infoB; infoC] perDirectoryPlan))
             (parseAllBut (shown "/repo/b" EmptyString)) in
  let d := getProjectDirs E (theProvider true) 0 in
  let configDirs := fst (fst (value d)) in
  let g := generateOuts E (theProvider true) configDirs (snd (fst (value d)))
             (final d) in
  ([projectFor E (theProvider true) "/repo/a"
      (shown "/repo/a" EmptyString, shown "/repo/a" EmptyString)] = [] /\
   (snd (value d)
      = Some (Wrap "unexpected token" "Error parsing Terraform JSON") \/
    exists outs,
      value g = Returned
                  (outs,
                   Some (Wrap "unexpected token"
                           "Error parsing Terraform JSON")))) \/
  (exists outs parsed err0 out,
      value g = Returned (outs, None) /\
      Wrap "unexpected token" "Error parsing Terraform JSON"
        = Wrap err0 "Error parsing Terraform JSON" /\
      length parsed < length configDirs /\
      map (fun o => parseJSON E o tt) (firstn (length parsed) outs)
        = map inl parsed /\
      nth_error outs (length parsed) = Some out /\
      parseJSON E out tt = inr err0 /\
      [projectFor E (theProvider true) "/repo/a"
         (shown "/repo/a" EmptyString, shown "/repo/a" EmptyString)]
        = map (fun c => projectFor E (theProvider true) (fst c) (snd c))
              (combine configDirs parsed)).
Proof.
  apply (load_error_keeps_projects_only_of_parse_error nat string bytes unit
           (withParse (scripted (tree [infoA; infoB; infoC] perDirectoryPlan))
              (parseAllBut (shown "/repo/b" EmptyString)))
           (theProvider true) tt 0).
  vm_compute. reflexivity.
Defined.

(** Three directories, a plan file each, one of which cannot be removed:
    three projects all the same. *)
Lemma load_three_projects_run :
  let E := scripted threeDirs in
  let d := getProjectDirs E (theProvider false) 0 in
  let configDirs := fst (fst (value d)) in
  let g := generateOuts E (theProvider false) configDirs (snd (fst (value d)))
             (final d) in
  let projects :=
    map (fun dir => projectFor E (theProvider false) dir
                      (shown dir (scriptedJoin (scriptedJoin dir ".cache")
                                               ".tfplan"),
                       shown dir (scriptedJoin (scriptedJoin dir ".cache")
                                               ".tfplan")))
        dirsABC in
  snd (value d) = None /\
  length projects = length configDirs /\
  exists outs parsed,
    value g = Returned (outs, None) /\
    length parsed = length configDirs /\
    map (fun o => parseJSON E o tt) (firstn (length configDirs) outs)
      = map inl parsed /\
    projects = map (fun c => projectFor E (theProvider false) (fst c) (snd c))
                   (combine configDirs parsed).
Proof.
  apply (load_success_one_project_per_directory nat string bytes unit
           (scripted threeDirs) (theProvider false) tt 0).
  vm_compute. reflexivity.
Defined.

Lemma load_projects_of_state_run :
  let E := scripted (tree [infoA; infoB] perDirectoryPlan) in
  let projects :=
    map (fun dir => projectFor E (theProvider true) dir
                      (shown dir EmptyString, shown dir EmptyString)) dirsAB in
  let configDirs := fst (fst (value (getProjectDirs E (theProvider true) 0))) in
  Forall (fun pr =>
            HasDiff pr = negb (dp_UseState (tp_DirProvider (theProvider true)))
            /\ (PastResources pr = None <-> HasDiff pr = false)) projects /\
  map (@ProjectMetadata _ _) projects =
    map (fun path => setType E (DetectProjectMetadata E path) "terragrunt")
        (firstn (length projects) configDirs) /\
  map (@Name _ _) projects =
    map (fun path =>
           GenerateProjectName E
             (setType E (DetectProjectMetadata E path) "terragrunt")
             (tp_EnableDashboard (theProvider true)))
        (firstn (length projects) configDirs).
Proof.
  apply (load_projects_follow_mode_and_directories nat string bytes unit
           (scripted (tree [infoA; infoB] perDirectoryPlan))
           (theProvider true) tt 0 _ None).
  vm_compute. reflexivity.
Defined.

Lemma load_unified_plan_panic_run :
  let E := scripted (tree [infoA; infoB] unifiedPlan) in
  dp_UseState (tp_DirProvider (theProvider false)) = false /\
  2 <= length (fst (fst (value (getProjectDirs E (theProvider false) 0)))) /\
  exists planFile planJSON,
    planJSON <> [] /\
    planCalls (events (LoadResources E (theProvider false) tt 0)) =
    [(planFile, planJSON, None)].
Proof.
  apply (load_panics_only_on_unified_plan nat string bytes unit
           (scripted (tree [infoA; infoB] unifiedPlan))
           (theProvider false) tt 0).
  vm_compute. reflexivity.
Defined.

(** The show call of the second directory fails, or its options cannot be
    built: what follows is the unwinding. *)
Lemma generators_fail_fast_run :
  forallb isCleanupEvent
    (skipn 6 (events (generateStateJSONs (scripted stateBadShow)
                        (theProvider true) dirsAB 0))) = true /\
  forallb isCleanupEvent
    (skipn 8 (events (generatePlanJSONs
                        (scripted (withBadOpts
                                     (tree [infoA; infoB] perDirectoryPlan)
                                     ["/repo/b"]))
                        (tp_DirProvider (theProvider false))
                        dirsAB workAB 0))) = true.
Proof.
  split.
  - apply (proj1 (generators_stop_at_first_failure nat string bytes unit
                    (scripted stateBadShow))
                 (theProvider true) dirsAB 0
                 (firstn 5 (events (generateStateJSONs (scripted stateBadShow)
                                      (theProvider true) dirsAB 0)))
                 (EvShow {| TerraformBinary := "terragrunt";
                            Dir := "/repo/b";
                            TerraformConfigFile := "/repo/b/override.tf" |}
                         EmptyString (inr "show failed in /repo/b"))).
    + vm_compute. reflexivity.
    + reflexivity.
  - apply (proj2 (generators_stop_at_first_failure nat string bytes unit
                    (scripted (withBadOpts
                                 (tree [infoA; infoB] perDirectoryPlan)
                                 ["/repo/b"])))
                 (tp_DirProvider (theProvider false)) dirsAB workAB 0
                 (firstn 7 (events (generatePlanJSONs
                                      (scripted (withBadOpts
                                                   (tree [infoA; infoB]
                                                      perDirectoryPlan)
                                                   ["/repo/b"]))
                                      (tp_DirProvider (theProvider false))
                                      dirsAB workAB 0)))
                 (EvBuildOpts "/repo/b"
                    (inr "cannot build options for /repo/b"))).
    + vm_compute. reflexivity.
    + reflexivity.
Defined.

Lemma load_show_files_run :
  map (fun c => snd (fst c))
      (showCalls (events (LoadResources (scripted threeDirs)
                            (theProvider false) tt 0))) =
  map (fun wd => scriptedJoin wd ".tfplan")
      (snd (fst (value (getProjectDirs (scripted threeDirs)
                          (theProvider false) 0)))).
Proof.
  apply (load_shows_plan_file_of_each_working_dir nat string bytes unit
           (scripted threeDirs) (theProvider false) tt 0
           (map (fun dir => projectFor (scripted threeDirs) (theProvider false)
                              dir
                              (shown dir (scriptedJoin (scriptedJoin dir ".cache")
                                                       ".tfplan"),
                               shown dir (scriptedJoin (scriptedJoin dir ".cache")
                                                       ".tfplan")))
                dirsABC)
           ".tfplan").
  - reflexivity.
  - vm_compute. reflexivity.
  - vm_compute. reflexivity.
Defined.

(** ** The two shapes of a fresh plan *)

Section PlanShapes.
Variables World Metadata Resources Usage : Type.
Variable E : Env World Metadata Resources Usage.

(** The show calls of a loop trace: their plan files, and how many. *)
Lemma showCalls_script_files steps stop :
  map (fun c => snd (fst c))
      (showCalls (flat_map stepEvents steps ++ stopEvents stop)) =
    map st_planFile steps ++ stopPlanFile stop /\
  length (showCalls (flat_map stepEvents steps ++ stopEvents stop)) =
    length steps + length (stopPlanFile stop).
Proof.
  rewrite showCalls_script, map_app, length_app, !map_map, length_map.
  destruct stop; split; reflexivity.
Qed.

(** C1, as the code has it.  Let the aggregate plan command have run and
    answered, without error, the plan file name [planFile] and the JSON
    [planJSON].  If [planJSON] is not empty, [generatePlanJSONs] returns
    that JSON as its one output and makes no show call.  If it is empty,
    the i-th show call made is pointed at [join(workingDirs[i], planFile)]
    and there are at most as many as configuration directories; and when
    no call of the run answers an error and every configuration directory
    has its working directory, the call returns without error one output
    per configuration directory, after exactly that many show calls, whose
    answers are the outputs, in order. *)
Theorem plan_outputs_by_shape_and_failure p configDirs workingDirs w
    planFile planJSON :
  let r := generatePlanJSONs E p configDirs workingDirs w in
  let shows := showCalls (events r) in
  planCalls (events r) = [(planFile, planJSON, None)] ->
  (planJSON <> [] ->
   value r = Returned ([planJSON], None) /\ shows = []) /\
  (planJSON = [] ->
   length shows <= length configDirs /\
   map (fun c => snd (fst c)) shows =
     map (fun wd => filepath_Join E wd planFile)
         (firstn (length shows) workingDirs) /\
   (forallb (fun e => negb (isFailure e)) (events r) = true ->
    length configDirs <= length workingDirs ->
    exists outs,
      value r = Returned (outs, None) /\
      length outs = length configDirs /\
      length shows = length configDirs /\
      map snd shows = map inl outs)).
Proof.
  intros r shows. subst r shows.
  destruct (generatePlanJSONs_run World Metadata Resources Usage E
              p configDirs workingDirs w) as [-> ->].
  pose proof (unwind_events_cleanup World Metadata Resources Usage E
    (snd (value (generatePlanJSONs_body E p configDirs workingDirs w)))
    (final (generatePlanJSONs_body E p configDirs workingDirs w))) as Hun.
  pose proof (cleanup_events_silent _ Hun) as (Hs & _ & Hpl & _).
  rewrite planCalls_app, showCalls_app, Hs, Hpl, !app_nil_r.
  pose proof (generatePlanJSONs_body_defers World Metadata Resources Usage E
                p configDirs workingDirs w) as Hdefers.
  cbv zeta in Hdefers.
  destruct (generatePlanJSONs_body_script World Metadata Resources Usage E
              p configDirs workingDirs w)
    as [(Hnone & _)
       |(opts & pf & pj & perr & after & extra & root & Hev & _ & _ & _
         & Hpa & _ & Hcase)].
  { rewrite Hnone. discriminate. }
  rewrite Hev. cbn [app planCalls showCalls]. rewrite Hpa.
  intros [= <- <- ->].
  destruct (Nat.ltb_spec 0 (length pj)) as [Hlen|Hlen].
  - destruct Hcase as [-> Hv]. split.
    + intros _. split; [exact Hv | reflexivity].
    + intros ->. simpl in Hlen. lia.
  - destruct Hcase as (steps & stop & rest & -> & Hp & Hc & Hv & Hpf & Hn).
    split; [intros Hne; destruct pj; [congruence | simpl in Hlen; lia]|].
    intros _. cbn [showCalls].
    destruct (showCalls_script_files steps stop) as [Hfiles Hcount].
    split; [apply (showCalls_length_script steps stop rest), Hp|].
    split; [rewrite Hfiles, Hcount; exact Hpf|].
    intros Hnf Hle.
    destruct stop as [|path err|path opts0 planFile0 err|path opts0].
    + cbn [loopValue stopPath stopPlanFile stopEvents app length] in *.
      rewrite (Hc eq_refl) in Hp. rewrite !app_nil_r in *.
      exists (map st_out steps). rewrite Hv.
      split; [reflexivity|].
      rewrite showCalls_steps, Hp, !length_map, !map_map.
      repeat split.
    + exfalso.
      apply (no_failure_no_split _
               ([EvChecks None; EvBuildOpts (dp_Path p) (inl opts);
                 EvSpinnerNew "Running terragrunt run-all plan";
                 EvPlan opts true (pf, pj, None);
                 EvSpinnerNew (showSpinnerMsg configDirs)]
                  ++ flat_map stepEvents steps)
               (events
                  (unwind E
                     (snd (value (generatePlanJSONs_body E p configDirs
                                    workingDirs w)))
                     (final (generatePlanJSONs_body E p configDirs
                               workingDirs w))))
               (EvBuildOpts path (inr err)) Hnf); [|reflexivity].
      cbn [stopEvents app]. rewrite <- !app_assoc. reflexivity.
    + exfalso.
      apply (no_failure_no_split _
               ([EvChecks None; EvBuildOpts (dp_Path p) (inl opts);
                 EvSpinnerNew "Running terragrunt run-all plan";
                 EvPlan opts true (pf, pj, None);
                 EvSpinnerNew (showSpinnerMsg configDirs)]
                  ++ flat_map stepEvents steps
                  ++ [EvBuildOpts path (inl opts0)])
               (events
                  (unwind E
                     (snd (value (generatePlanJSONs_body E p configDirs
                                    workingDirs w)))
                     (final (generatePlanJSONs_body E p configDirs
                               workingDirs w))))
               (EvShow opts0 planFile0 (inr err)) Hnf); [|reflexivity].
      cbn [stopEvents app]. rewrite <- !app_assoc. reflexivity.
    + exfalso. cbn [loopValue] in Hv.
      destruct Hdefers
        as [(_ & _ & _ & _ & Hnp & _)
           |(o & f & j & pe & le & _ & _ & _ & _ & Hpanic & _)].
      * exact (Hnp Hv).
      * destruct (Hpanic Hv) as [Hlt _]. lia.
Qed.

End PlanShapes.

(** A plan for the whole tree: one output and no show call.  A plan file
    per directory and no failure: two show calls, two outputs. *)
Lemma plan_both_shapes_run :
  (value (generatePlanJSONs (scripted (tree [infoA; infoB] unifiedPlan))
            (tp_DirProvider (theProvider false)) dirsAB workAB 0)
     = Returned ([list_byte_of_string "{}"], None) /\
   showCalls
     (events (generatePlanJSONs (scripted (tree [infoA; infoB] unifiedPlan))
                (tp_DirProvider (theProvider false)) dirsAB workAB 0)) = []) /\
  (exists outs,
      value (generatePlanJSONs
               (scripted (tree [infoA; infoB] perDirectoryPlan))
               (tp_DirProvider (theProvider false)) dirsAB workAB 0)
        = Returned (outs, None) /\
      length outs = length dirsAB /\
      length (showCalls
                (events (generatePlanJSONs
                           (scripted (tree [infoA; infoB] perDirectoryPlan))
                           (tp_DirProvider (theProvider false))
                           dirsAB workAB 0))) = length dirsAB /\
      map snd
          (showCalls
             (events (generatePlanJSONs
                        (scripted (tree [infoA; infoB] perDirectoryPlan))
                        (tp_DirProvider (theProvider false))
                        dirsAB workAB 0))) = map inl outs).
Proof.
  split.
  - apply (proj1 (plan_outputs_by_shape_and_failure nat string bytes unit
                    (scripted (tree [infoA; infoB] unifiedPlan))
                    (tp_DirProvider (theProvider false)) dirsAB workAB 0
                    ".tfplan" (list_byte_of_string "{}") eq_refl)).
    discriminate.
  - apply (proj2 (proj2 (proj2
             (plan_outputs_by_shape_and_failure nat string bytes unit
                (scripted (tree [infoA; infoB] perDirectoryPlan))
                (tp_DirProvider (theProvider false)) dirsAB workAB 0
                ".tfplan" [] eq_refl) eq_refl))).
    + reflexivity.
    + simpl. lia.
Defined.

(** C1 as stated fails: the plan command answers no JSON and no error, there
    are two configuration directories, and the show call of the second
    fails; the call returns one output, not two. *)
Lemma plan_failed_show_returns_fewer :
  let r := generatePlanJSONs
             (scripted (withBadShow (tree [infoA; infoB] perDirectoryPlan)
                          ["/repo/b"]))
             (tp_DirProvider (theProvider false)) dirsAB workAB 0 in
  planCalls (events r) = [(".tfplan", [], None)] /\
  value r = Returned ([shown "/repo/a" "/repo/a/.cache/.tfplan"],
                      Some "show failed in /repo/b") /\
  length [shown "/repo/a" "/repo/a/.cache/.tfplan"] <> length dirsAB.
Proof.
  vm_compute. repeat split. discriminate.
Qed.
